(** * The result-lookup handler of [api.py]

    A shallow embedding of the [/api/search-result] handler
    ([search_result], api.py lines 153-293) and of the collaborators it
    calls, followed by the properties the specification states about it.

    - Python values are the inductive [pyval]; a [dict] is an association
      list with string keys, kept in insertion order.
    - Effects are explicit: a computation is a function from the [World]
      (the manager's state and a journal of outside calls) to an [outcome]
      and the world after it.  A raised exception keeps the state changes
      made before it, as in Python. *)

From Stdlib Require Import String Ascii List NArith ZArith Bool Lia DecimalString.
Import ListNotations.
Local Open Scope list_scope.
Local Open Scope string_scope.
Set Warnings "-register-all".

(** An exception: its class and the text [str(e)] gives. *)
Record exn : Type := mk_exn { exn_class : string; exn_text : string }.

(** What running a piece of code gives: a value, or a raised exception. *)
Inductive outcome (A : Type) : Type :=
| Ok (a : A)
| Raise (e : exn).

Arguments Ok {A} a.
Arguments Raise {A} e.

(** ** The Python runtime

    What the interpreter supplies and the handler only uses through [str],
    [bool] and [json.loads]: floating-point numbers and the [repr] of a
    string.  The handler never computes with a float. *)

Class PyRuntime : Type := {
  pyfloat : Type;
  (** [str(x)] of a float *)
  float_str : pyfloat -> string;
  (** [bool(x)] of a float *)
  float_bool : pyfloat -> bool;
  (** [float(text)], the number a JSON literal denotes *)
  float_of_literal : string -> pyfloat;
  (** [repr(s)] of a string *)
  str_repr : string -> string
}.

Section Values.
Context {R : PyRuntime}.

Inductive pyval : Type :=
| PNone
| PBool (b : bool)
| PInt (z : Z)
| PFloat (f : pyfloat)
| PStr (s : string)
| PList (l : list pyval)
| PDict (d : list (string * pyval)).

Definition dict : Type := list (string * pyval).

Definition type_name (v : pyval) : string :=
  match v with
  | PNone => "NoneType"
  | PBool _ => "bool"
  | PInt _ => "int"
  | PFloat _ => "float"
  | PStr _ => "str"
  | PList _ => "list"
  | PDict _ => "dict"
  end.

(** [bool(v)] *)
Definition truthy (v : pyval) : bool :=
  match v with
  | PNone => false
  | PBool b => b
  | PInt z => negb (z =? 0)%Z
  | PFloat f => float_bool f
  | PStr s => negb (s =? "")
  | PList l => match l with [] => false | _ => true end
  | PDict d => match d with [] => false | _ => true end
  end.

Definition is_none (v : pyval) : bool :=
  match v with PNone => true | _ => false end.

(** [v == 'text'] for a string literal on the right *)
Definition eq_str (v : pyval) (text : string) : bool :=
  match v with PStr s => s =? text | _ => false end.

(** *** Dictionaries *)

Fixpoint lookup (k : string) (d : dict) : option pyval :=
  match d with
  | [] => None
  | (k', v) :: rest => if k =? k' then Some v else lookup k rest
  end.

(** [d.get(k, default)] *)
Definition dict_get (d : dict) (k : string) (default : pyval) : pyval :=
  match lookup k d with Some v => v | None => default end.

(** [d[k] = v]: an existing key keeps its place, a new one goes last. *)
Fixpoint dict_set (d : dict) (k : string) (v : pyval) : dict :=
  match d with
  | [] => [(k, v)]
  | (k', v') :: rest =>
      if k =? k' then (k, v) :: rest else (k', v') :: dict_set rest k v
  end.

Definition join (sep : string) (parts : list string) : string :=
  match parts with
  | [] => ""
  | p :: rest => fold_left (fun acc q => acc ++ sep ++ q) rest p
  end.

(** [repr(v)] *)
Fixpoint py_repr (v : pyval) : string :=
  match v with
  | PNone => "None"
  | PBool b => if b then "True" else "False"
  | PInt z => NilZero.string_of_int (Z.to_int z)
  | PFloat f => float_str f
  | PStr s => str_repr s
  | PList l => "[" ++ join ", " (map py_repr l) ++ "]"
  | PDict d =>
      "{" ++ join ", "
               (map (fun kv => str_repr (fst kv) ++ ": " ++ py_repr (snd kv)) d)
          ++ "}"
  end.

(** [str(v)]: a string is itself, anything else prints as its [repr]. *)
Definition py_str (v : pyval) : string :=
  match v with
  | PStr s => s
  | _ => py_repr v
  end.

(** The value under key [k] of a document. *)
Definition field (k : string) (v : pyval) : option pyval :=
  match v with
  | PDict d => lookup k d
  | _ => None
  end.

(** *** Operations that can raise *)

Definition AttributeError (v : pyval) (attr : string) : exn :=
  mk_exn "AttributeError"
         ("'" ++ type_name v ++ "' object has no attribute '" ++ attr ++ "'").

Definition KeyError (k : string) : exn :=
  mk_exn "KeyError" ("'" ++ k ++ "'").

Definition TypeError (text : string) : exn := mk_exn "TypeError" text.

(** [v.get(k, default)]: only a dict has the method. *)
Definition py_get (v : pyval) (k : string) (default : pyval) : outcome pyval :=
  match v with
  | PDict d => Ok (dict_get d k default)
  | _ => Raise (AttributeError v "get")
  end.

(** [v[k]] with a string key *)
Definition py_getitem (v : pyval) (k : string) : outcome pyval :=
  match v with
  | PDict d =>
      match lookup k d with
      | Some x => Ok x
      | None => Raise (KeyError k)
      end
  | PStr _ => Raise (TypeError "string indices must be integers, not 'str'")
  | PList _ =>
      Raise (TypeError "list indices must be integers or slices, not str")
  | _ => Raise (TypeError ("'" ++ type_name v ++ "' object is not subscriptable"))
  end.

(** [v.startswith(p)]: only a string has the method. *)
Definition py_startswith (v : pyval) (p : string) : outcome bool :=
  match v with
  | PStr s => Ok (String.prefix p s)
  | _ => Raise (AttributeError v "startswith")
  end.

(** [len(v)] *)
Definition py_len (v : pyval) : outcome nat :=
  match v with
  | PStr s => Ok (String.length s)
  | PList l => Ok (List.length l)
  | PDict d => Ok (List.length d)
  | _ => Raise (TypeError ("object of type '" ++ type_name v ++ "' has no len()"))
  end.

Fixpoint chars (s : string) : list pyval :=
  match s with
  | EmptyString => []
  | String c rest => PStr (String c EmptyString) :: chars rest
  end.

(** The items a [for] loop over [v] visits. *)
Definition py_iter (v : pyval) : outcome (list pyval) :=
  match v with
  | PList l => Ok l
  | PDict d => Ok (map (fun kv => PStr (fst kv)) d)
  | PStr s => Ok (chars s)
  | _ => Raise (TypeError ("'" ++ type_name v ++ "' object is not iterable"))
  end.

End Values.

(** ** [json.loads]

    The standard decoder, on the text of a [str]: one JSON value between
    optional blanks.  [None] stands for a raised [JSONDecodeError].  Text is
    carried as UTF-8, so a backslash-u escape is stored as the bytes of its
    code point.  A number with a fraction or an exponent is the float the
    runtime reads from its literal. *)

Section Json.
Context {R : PyRuntime}.

(** The character that opens and closes a string literal. *)
Definition double_quote : ascii := ascii_of_N 34.

Definition is_ws (c : ascii) : bool :=
  let n := N_of_ascii c in
  (n =? 32)%N || (n =? 9)%N || (n =? 10)%N || (n =? 13)%N.

Fixpoint skip_ws (s : string) : string :=
  match s with
  | String c rest => if is_ws c then skip_ws rest else s
  | EmptyString => s
  end.

Definition is_digit (c : ascii) : bool :=
  let n := N_of_ascii c in (48 <=? n)%N && (n <=? 57)%N.

(** The longest run of digits at the head of [s], and what follows it. *)
Fixpoint span_digits (s : string) : string * string :=
  match s with
  | String c rest =>
      if is_digit c
      then let (ds, tl) := span_digits rest in (String c ds, tl)
      else (EmptyString, s)
  | EmptyString => (EmptyString, s)
  end.

Fixpoint digits_value (ds : string) (acc : Z) : Z :=
  match ds with
  | String c rest => digits_value rest (10 * acc + (Z.of_N (N_of_ascii c) - 48))
  | EmptyString => acc
  end.

(** A number at the head of [s]: an optional minus, then a lone zero or a
    run of digits not starting with zero, then optionally a dot with digits,
    then optionally an exponent (e or E, an optional sign, digits).  The
    longest such match is taken.  Without fraction and exponent it is an
    int, otherwise a float. *)
Definition scan_number (s : string) : option (pyval * string) :=
  let (sign, s1) :=
    match s with
    | String c rest => if Ascii.eqb c "-" then ("-", rest) else ("", s)
    | EmptyString => ("", s)
    end in
  match s1 with
  | String c rest =>
      if is_digit c then
        let (int_part, s2) :=
          if Ascii.eqb c "0" then ("0", rest)
          else let (ds, tl) := span_digits rest in (String c ds, tl) in
        let (frac, s3) :=
          match s2 with
          | String d tl =>
              if Ascii.eqb d "." then
                let (ds, tl') := span_digits tl in
                if ds =? "" then ("", s2) else (String d ds, tl')
              else ("", s2)
          | EmptyString => ("", s2)
          end in
        let (expo, s4) :=
          match s3 with
          | String e tl =>
              if Ascii.eqb e "e" || Ascii.eqb e "E" then
                let (sg, tl1) :=
                  match tl with
                  | String g tl0 =>
                      if Ascii.eqb g "+" || Ascii.eqb g "-"
                      then (String g "", tl0) else ("", tl)
                  | EmptyString => ("", tl)
                  end in
                let (ds, tl2) := span_digits tl1 in
                if ds =? "" then ("", s3) else (String e (sg ++ ds), tl2)
              else ("", s3)
          | EmptyString => ("", s3)
          end in
        if (frac =? "") && (expo =? "")
        then let n := digits_value int_part 0 in
             Some (PInt (if sign =? "-" then Z.opp n else n), s4)
        else Some (PFloat (float_of_literal (sign ++ int_part ++ frac ++ expo)), s4)
      else None
  | EmptyString => None
  end.

Definition hex_value (c : ascii) : option N :=
  let n := N_of_ascii c in
  if (48 <=? n)%N && (n <=? 57)%N then Some (n - 48)%N
  else if (65 <=? n)%N && (n <=? 70)%N then Some (n - 55)%N
  else if (97 <=? n)%N && (n <=? 102)%N then Some (n - 87)%N
  else None.

Definition hex4 (a b c d : ascii) : option N :=
  match hex_value a, hex_value b, hex_value c, hex_value d with
  | Some x, Some y, Some z, Some w => Some (((x * 16 + y) * 16 + z) * 16 + w)%N
  | _, _, _, _ => None
  end.

Definition byte (n : N) : string := String (ascii_of_N n) EmptyString.

(** The UTF-8 bytes of a code point. *)
Definition utf8 (cp : N) : string :=
  if (cp <? 128)%N then byte cp
  else if (cp <? 2048)%N then
    byte (192 + cp / 64) ++ byte (128 + cp mod 64)
  else if (cp <? 65536)%N then
    byte (224 + cp / 4096) ++ byte (128 + (cp / 64) mod 64)
         ++ byte (128 + cp mod 64)
  else
    byte (240 + cp / 262144) ++ byte (128 + (cp / 4096) mod 64)
         ++ byte (128 + (cp / 64) mod 64) ++ byte (128 + cp mod 64).

(** The character a one-letter escape stands for. *)
Definition simple_escape (c : ascii) : option string :=
  let n := N_of_ascii c in
  if (n =? 34)%N then Some (byte 34)          (* quote *)
  else if (n =? 92)%N then Some (byte 92)     (* backslash *)
  else if (n =? 47)%N then Some (byte 47)     (* slash *)
  else if (n =? 98)%N then Some (byte 8)      (* b: backspace *)
  else if (n =? 102)%N then Some (byte 12)    (* f: form feed *)
  else if (n =? 110)%N then Some (byte 10)    (* n: line feed *)
  else if (n =? 114)%N then Some (byte 13)    (* r: carriage return *)
  else if (n =? 116)%N then Some (byte 9)     (* t: tab *)
  else None.

(** The low half of a surrogate pair, when the text goes on with one. *)
Definition low_surrogate (s : string) : option (N * string) :=
  match s with
  | String b (String u (String h1 (String h2 (String h3 (String h4 rest))))) =>
      if Ascii.eqb b "\" && Ascii.eqb u "u" then
        match hex4 h1 h2 h3 h4 with
        | Some lo =>
            if (56320 <=? lo)%N && (lo <=? 57343)%N
            then Some (lo, rest) else None
        | None => None
        end
      else None
  | _ => None
  end.

(** The body of a string literal, after its opening quote: the decoded text
    and what follows the closing quote.  A raw control character, an unknown
    escape and a missing closing quote are errors. *)
Fixpoint scan_string (s : string) : option (string * string) :=
  match s with
  | EmptyString => None
  | String c rest =>
      if Ascii.eqb c double_quote then Some ("", rest)
      else if Ascii.eqb c "\" then
        match rest with
        | String e rest1 =>
            if Ascii.eqb e "u" then
              match rest1 with
              | String h1 (String h2 (String h3 (String h4 rest2))) =>
                  match hex4 h1 h2 h3 h4 with
                  | Some hi =>
                      let pair :=
                        if (55296 <=? hi)%N && (hi <=? 56319)%N
                        then low_surrogate rest2 else None in
                      match pair with
                      | Some (lo, _) =>
                          match rest2 with
                          | String _ (String _ (String _ (String _
                              (String _ (String _ rest3))))) =>
                              match scan_string rest3 with
                              | Some (t, tl) =>
                                  Some (utf8 (65536 + (hi - 55296) * 1024
                                              + (lo - 56320))%N ++ t, tl)
                              | None => None
                              end
                          | _ => None
                          end
                      | None =>
                          match scan_string rest2 with
                          | Some (t, tl) => Some (utf8 hi ++ t, tl)
                          | None => None
                          end
                      end
                  | None => None
                  end
              | _ => None
              end
            else
              match simple_escape e with
              | Some t0 =>
                  match scan_string rest1 with
                  | Some (t, tl) => Some (t0 ++ t, tl)
                  | None => None
                  end
              | None => None
              end
        | EmptyString => None
        end
      else if (N_of_ascii c <? 32)%N then None
      else
        match scan_string rest with
        | Some (t, tl) => Some (String c t, tl)
        | None => None
        end
  end.

Definition starts_with (p s : string) : option string :=
  if String.prefix p s
  then Some (substring (String.length p) (String.length s - String.length p) s)
  else None.

(** One JSON value at the head of [s].  [fuel] bounds the depth of the
    calls; a nested value costs its parent two units, and [json_loads]
    gives twice the length of the text.  Running out reads as a failure to
    decode, as the interpreter's own limit on nesting does. *)
Fixpoint scan_once (fuel : nat) (s : string) {struct fuel}
  : option (pyval * string) :=
  match fuel with
  | O => None
  | S n =>
      match s with
      | EmptyString => None
      | String c rest =>
          if Ascii.eqb c double_quote then
            match scan_string rest with
            | Some (t, tl) => Some (PStr t, tl)
            | None => None
            end
          else if Ascii.eqb c "{" then
            match skip_ws rest with
            | String c' tl =>
                if Ascii.eqb c' "}" then Some (PDict [], tl)
                else scan_pairs n (String c' tl) []
            | EmptyString => None
            end
          else if Ascii.eqb c "[" then
            match skip_ws rest with
            | String c' tl =>
                if Ascii.eqb c' "]" then Some (PList [], tl)
                else scan_items n (String c' tl) []
            | EmptyString => None
            end
          else
            match starts_with "null" s, starts_with "true" s,
                  starts_with "false" s, starts_with "NaN" s,
                  starts_with "Infinity" s, starts_with "-Infinity" s with
            | Some tl, _, _, _, _, _ => Some (PNone, tl)
            | _, Some tl, _, _, _, _ => Some (PBool true, tl)
            | _, _, Some tl, _, _, _ => Some (PBool false, tl)
            | _, _, _, Some tl, _, _ => Some (PFloat (float_of_literal "NaN"), tl)
            | _, _, _, _, Some tl, _ =>
                Some (PFloat (float_of_literal "Infinity"), tl)
            | _, _, _, _, _, Some tl =>
                Some (PFloat (float_of_literal "-Infinity"), tl)
            | _, _, _, _, _, _ => scan_number s
            end
      end
  end

(** The items of an array after its opening bracket, [acc] already read. *)
with scan_items (fuel : nat) (s : string) (acc : list pyval) {struct fuel}
  : option (pyval * string) :=
  match fuel with
  | O => None
  | S n =>
      match scan_once n s with
      | Some (v, tl) =>
          match skip_ws tl with
          | String c tl' =>
              if Ascii.eqb c "]" then Some (PList (acc ++ [v])%list, tl')
              else if Ascii.eqb c ","
                   then scan_items n (skip_ws tl') (acc ++ [v])%list
                   else None
          | EmptyString => None
          end
      | None => None
      end
  end

(** The members of an object after its opening brace; a repeated key keeps
    its first place and takes the last value. *)
with scan_pairs (fuel : nat) (s : string) (acc : dict) {struct fuel}
  : option (pyval * string) :=
  match fuel with
  | O => None
  | S n =>
      match s with
      | String q rest =>
          if Ascii.eqb q double_quote then
            match scan_string rest with
            | Some (k, tl) =>
                match skip_ws tl with
                | String c tl1 =>
                    if Ascii.eqb c ":" then
                      match scan_once n (skip_ws tl1) with
                      | Some (v, tl2) =>
                          match skip_ws tl2 with
                          | String c' tl3 =>
                              if Ascii.eqb c' "}"
                              then Some (PDict (dict_set acc k v), tl3)
                              else if Ascii.eqb c' ","
                                   then scan_pairs n (skip_ws tl3)
                                                   (dict_set acc k v)
                                   else None
                          | EmptyString => None
                          end
                      | None => None
                      end
                    else None
                | EmptyString => None
                end
            | None => None
            end
          else None
      | EmptyString => None
      end
  end.

(** [json.loads(s)] *)
Definition json_loads (s : string) : option pyval :=
  match scan_once (2 * String.length s + 2) (skip_ws s) with
  | Some (v, tl) => if skip_ws tl =? "" then Some v else None
  | None => None
  end.

End Json.

(** ** The normalizer (api.py lines 191-196 and 247-270) *)

Section Normalizer.
Context {R : PyRuntime}.

(** The timestamp given to a record that has no [created_at] key. *)
Definition default_timestamp : pyval := PStr "2025-01-01T00:00:00Z".

(** Lines 192-196: the entry appended to [cgpa_data] for one CGPA row. *)
Definition cgpa_entry (cgpa_record : dict) : pyval :=
  PDict [("semester", dict_get cgpa_record "semester" (PStr "Final"));
         ("cgpa", PStr (py_str (dict_get cgpa_record "cgpa" (PStr "0.00"))));
         ("publishedAt", dict_get cgpa_record "created_at" default_timestamp)].

(** Lines 249-258: [ref_subjects] brought to a list.  A string is handed to
    [json.loads]; whatever that raises is caught by the bare [except], which
    wraps a non-empty string and drops an empty one. *)
Definition decode_ref_subjects (ref_subjects : pyval) : pyval :=
  match ref_subjects with
  | PStr s =>
      match json_loads s with
      | Some decoded => decoded
      | None => if truthy ref_subjects then PList [ref_subjects] else PList []
      end
  | PNone => PList []
  | _ => ref_subjects
  end.

(** Lines 264 and 268: the text shown for the grade point. *)
Definition gpa_text (gpa_record : dict) : string :=
  if negb (is_none (dict_get gpa_record "gpa" PNone))
  then py_str (dict_get gpa_record "gpa" (PStr "0.00"))
  else "ref".

(** Lines 249-269: the entry appended to [resultData] for one GPA row. *)
Definition semester_result (gpa_record : dict) : pyval :=
  let ref_subjects :=
    decode_ref_subjects (dict_get gpa_record "ref_subjects" (PList [])) in
  PDict [("publishedAt", dict_get gpa_record "created_at" default_timestamp);
         ("semester", PStr (py_str (dict_get gpa_record "semester" (PInt 1))));
         ("result", PDict [("gpa", PStr (gpa_text gpa_record));
                           ("ref_subjects", ref_subjects)]);
         ("passed",
          PBool (negb (truthy (dict_get gpa_record "is_reference" (PBool false)))));
         ("gpa", PStr (gpa_text gpa_record))].

(** The loop body at lines 247-270 on any item: every step goes through
    [.get], which only a dict has. *)
Definition normalize_gpa_record (gpa_record : pyval) : outcome pyval :=
  match gpa_record with
  | PDict d => Ok (semester_result d)
  | _ => Raise (AttributeError gpa_record "get")
  end.

(** Lines 246-270: the entries of [resultData], in the order of the rows;
    the first item that raises ends the loop. *)
Fixpoint normalize_gpa_records (items : list pyval) : outcome (list pyval) :=
  match items with
  | [] => Ok []
  | gpa_record :: rest =>
      match normalize_gpa_record gpa_record with
      | Ok entry =>
          match normalize_gpa_records rest with
          | Ok entries => Ok (entry :: entries)
          | Raise e => Raise e
          end
      | Raise e => Raise e
      end
  end.

End Normalizer.

(** ** The world the handler runs in *)

(** The registry [supabase_manager]: the names under which sources are
    registered (the keys of its [projects] mapping), the active one, and
    the configured priority list. *)
Record Manager : Type := mk_manager {
  projects : list string;
  current_project : string;
  search_order : list string
}.

Section World.
Context {R : PyRuntime}.

(** A call that leaves the process: a query sent to a source, named by the
    source that was active when it was sent, or a call of the adapter. *)
Inductive Event : Type :=
| StudentQuery (project : string) (roll regulation program : pyval)
| InstituteQuery (project : string) (code : pyval)
| CgpaQuery (project : string) (roll : pyval)
| GpaQuery (project : string) (roll : pyval)
| WebSearch (roll regulation program : pyval).

(** The mutable state: the registry, and the calls made so far, oldest
    first. *)
Record World : Type := mk_world {
  manager : Manager;
  journal : list Event
}.

(** What the outside answers.  A source answers a query with rows or with
    an exception; the three request fields reach it unchanged. *)
Record Env : Type := mk_env {
  (** the module-level flag set when the imports succeeded *)
  SUPABASE_AVAILABLE : bool;
  (** [request.get_json()] *)
  request_json : outcome pyval;
  (** exact match on roll, regulation and program in one source *)
  students : string -> pyval -> pyval -> pyval -> outcome (option dict);
  (** the institute with a given code in one source *)
  institutes : string -> pyval -> outcome (option dict);
  (** the rows of [cgpa_records] for a roll number in one source *)
  cgpa_records : string -> pyval -> outcome (list dict);
  (** the rows of [gpa_records] for a roll number, by semester *)
  gpa_records : string -> pyval -> outcome (list dict);
  (** the adapter [search_student_in_web_apis] *)
  web_apis : pyval -> pyval -> pyval -> outcome pyval
}.

(** *** Computations *)

Definition M (A : Type) : Type := World -> outcome A * World.

Definition ret {A : Type} (a : A) : M A := fun w => (Ok a, w).

Definition bind {A B : Type} (m : M A) (k : A -> M B) : M B :=
  fun w =>
    match m w with
    | (Ok a, w') => k a w'
    | (Raise e, w') => (Raise e, w')
    end.

Definition raise {A : Type} (e : exn) : M A := fun w => (Raise e, w).

Definition lift {A : Type} (o : outcome A) : M A := fun w => (o, w).

(** [try: m  except Exception as e: handler e] *)
Definition try_except {A : Type} (m : M A) (handler : exn -> M A) : M A :=
  fun w =>
    match m w with
    | (Ok a, w') => (Ok a, w')
    | (Raise e, w') => handler e w'
    end.

Definition log (ev : Event) : M unit :=
  fun w => (Ok tt, mk_world (manager w) (journal w ++ [ev])%list).

Definition set_current (name : string) (w : World) : World :=
  mk_world (mk_manager (projects (manager w)) name (search_order (manager w)))
           (journal w).

End World.

Declare Scope py_scope.
Delimit Scope py_scope with py.
Notation "x <- m ;; k" := (bind m (fun x => k))
  (at level 61, m at next level, right associativity) : py_scope.
Notation "m ;;; k" := (bind m (fun _ => k))
  (at level 61, right associativity) : py_scope.
Local Open Scope py_scope.

(** ** The collaborators in [multi_supabase] and [web_api_fallback] *)

Section Collaborators.
Context {R : PyRuntime}.
Variable env : Env.

Definition registered (name : string) (m : Manager) : bool :=
  existsb (String.eqb name) (projects m).

(** Modelled from the spec: [supabase_manager.switch_project], whose module
    [multi_supabase] is not in the sources.  Section 4.1: switching to an
    unregistered name fails with [NotFoundError]; otherwise the active
    pointer is updated and the prior active name is returned.  The text of
    the error is not specified; the name is used. *)
Definition switch_project (name : pyval) : M string :=
  fun w =>
    match name with
    | PStr n =>
        if registered n (manager w)
        then (Ok (current_project (manager w)), set_current n w)
        else (Raise (mk_exn "NotFoundError" n), w)
    | _ => (Raise (mk_exn "NotFoundError" (py_str name)), w)
    end.

(** Modelled from the spec: [supabase_manager.get_search_order] (module
    [multi_supabase]).  Section 4.1: the fixed configured priority list. *)
Definition get_search_order : M (list string) :=
  fun w => (Ok (search_order (manager w)), w).

(** Modelled from the spec: [get_supabase_client] (module
    [multi_supabase]).  Section 2: the connection of the active source; it
    is identified here by the source's name. *)
Definition get_supabase_client : M string :=
  fun w => (Ok (current_project (manager w)), w).

(** Modelled from the spec: the Record Fetcher's [findStudent] of section
    4.2, on the connection [client]. *)
Definition find_student (client : string) (roll regulation program : pyval)
  : M (option dict) :=
  log (StudentQuery client roll regulation program) ;;;
  lift (students env client roll regulation program).

(** Modelled from the spec: the Record Fetcher's [findInstitute] of section
    4.2, on the connection [client]. *)
Definition find_institute (client : string) (code : pyval) : M (option dict) :=
  log (InstituteQuery client code) ;;;
  lift (institutes env client code).

(** [supabase.table('cgpa_records').select('*').eq('roll_number', roll)
    .execute().data], api.py line 188 *)
Definition select_cgpa_records (supabase : string) (roll : pyval)
  : M (list dict) :=
  log (CgpaQuery supabase roll) ;;;
  lift (cgpa_records env supabase roll).

(** [supabase.table('gpa_records').select('*').eq('roll_number', roll)
    .order('semester').execute().data], api.py line 223 *)
Definition select_gpa_records (supabase : string) (roll : pyval)
  : M (list dict) :=
  log (GpaQuery supabase roll) ;;;
  lift (gpa_records env supabase roll).

(** [search_student_in_web_apis(roll, regulation, program)], the adapter of
    section 4.4: one opaque call. *)
Definition search_student_in_web_apis (roll regulation program : pyval)
  : M pyval :=
  log (WebSearch roll regulation program) ;;;
  lift (web_apis env roll regulation program).

(** Modelled from the spec: one turn of the loop of section 4.3, step 2, on
    the source [name]: switch to it, look the student up, and on a hit fetch
    the institute from the same source.  [None] is "go on to the next
    source": the student is not there, or the source failed (section 7: an
    error on a per-source fetch is caught and the source skipped).  The keys
    of the result are those api.py reads. *)
Definition try_source (name : string) (roll regulation program : pyval)
  : M (option pyval) :=
  try_except
    (switch_project (PStr name) ;;;
     client <- get_supabase_client ;;
     student <- find_student client roll regulation program ;;
     match student with
     | None => ret None
     | Some student_data =>
         institute <-
           find_institute client (dict_get student_data "institute_code" PNone) ;;
         ret (Some (PDict
           [("student_data", PDict student_data);
            ("institute_data",
             match institute with Some i => PDict i | None => PNone end);
            ("project_name", PStr name);
            ("source", PStr "supabase")]))
     end)
    (fun _ => ret None).

(** Modelled from the spec: the loop of section 4.3, step 2: sources in
    priority order, ending at the first match. *)
Fixpoint search_sources (names : list string) (roll regulation program : pyval)
  : M (option pyval) :=
  match names with
  | [] => ret None
  | name :: rest =>
      hit <- try_source name roll regulation program ;;
      match hit with
      | Some result => ret (Some result)
      | None => search_sources rest roll regulation program
      end
  end.

(** Modelled from the spec: [supabase_manager.search_student_across_projects]
    (module [multi_supabase]), steps 1 to 3 of section 4.3: save the active
    name, search the sources in order, restore the saved name on every exit.
    A miss is [None]. *)
Definition search_student_across_projects (roll regulation program : pyval)
  : M pyval :=
  fun w =>
    let original := current_project (manager w) in
    match search_sources (search_order (manager w)) roll regulation program w with
    | (Ok (Some result), w') => (Ok result, set_current original w')
    | (Ok None, w') => (Ok PNone, set_current original w')
    | (Raise e, w') => (Raise e, set_current original w')
    end.

End Collaborators.

(** ** The handler [search_result] (api.py lines 153-293) *)

Section Handler.
Context {R : PyRuntime}.
Variable env : Env.

(** A response: the document given to [jsonify] and the status code. *)
Record Response : Type := mk_response {
  body : pyval;
  status : nat
}.

Definition jsonify (document : pyval) : Response := mk_response document 200.

Definition error_document (text : string) : pyval :=
  PDict [("error", PStr text)].

(** Lines 183-200: CGPA rows are looked for in every source in search
    order.  The first source with rows ends the loop; a source that raises
    is skipped.  [cgpa_data] is empty until then, so the entries of that
    source are the whole list. *)
Fixpoint cgpa_lookup (names : list string) (roll_no : pyval)
  : M (list pyval) :=
  match names with
  | [] => ret []
  | project_name :: rest =>
      found <-
        try_except
          (switch_project (PStr project_name) ;;;
           supabase <- get_supabase_client ;;
           data <- select_cgpa_records env supabase roll_no ;;
           match data with
           | [] => ret None
           | _ => ret (Some (map cgpa_entry data))
           end)
          (fun _ => ret None) ;;
      match found with
      | Some cgpa_data => ret cgpa_data
      | None => cgpa_lookup rest roll_no
      end
  end.

(** Lines 180-203: the CGPA data of a result.  After the loop the handler
    switches to the project named in the result. *)
Definition get_cgpa_data (result : dict) (roll_no : pyval) : M (list pyval) :=
  if eq_str (dict_get result "source" PNone) "supabase" then
    order <- get_search_order ;;
    cgpa_data <- cgpa_lookup order roll_no ;;
    switch_project (dict_get result "project_name" (PStr "primary")) ;;;
    ret cgpa_data
  else ret [].

(** Lines 217-228: the GPA rows, from the project named in the result; any
    exception gives the empty list. *)
Definition fetch_gpa_records (result : dict) (roll_no : pyval) : M pyval :=
  try_except
    (let found_project := dict_get result "project_name" (PStr "primary") in
     switch_project found_project ;;;
     supabase <- get_supabase_client ;;
     data <- select_gpa_records env supabase roll_no ;;
     ret (PList (map PDict data)))
    (fun _ => ret (PList [])).

(** Lines 210-228: where the GPA records come from. *)
Definition get_gpa_records (result : dict) (roll_no : pyval) : M pyval :=
  from_web <- lift (py_startswith (dict_get result "source" (PStr "")) "web_api") ;;
  if (from_web : bool) then
    let records := dict_get result "gpa_records" (PList []) in
    lift (py_len records) ;;;     (* line 214 prints [len(gpa_records)] *)
    ret records
  else fetch_gpa_records result roll_no.

(** Lines 231-243: the document, its fields evaluated in the order
    written; [resultData] is still empty. *)
Definition transformed_data (result : dict) : outcome dict :=
  let item (v : pyval) (k : string) (next : pyval -> outcome dict) :=
    match py_getitem v k with
    | Ok x => next x
    | Raise e => Raise e
    end in
  item (PDict result) "student_data" (fun student =>
  item student "roll_number" (fun roll =>
  item student "regulation_year" (fun regulation =>
  item student "program_name" (fun exam =>
  item (PDict result) "institute_data" (fun institute =>
  item institute "institute_code" (fun code =>
  item institute "name" (fun name =>
  item institute "district" (fun district =>
  Ok [("success", PBool true);
      ("roll", roll);
      ("regulation", regulation);
      ("exam", exam);
      ("instituteData",
       PDict [("code", code); ("name", name); ("district", district)]);
      ("resultData", PList []);
      ("cgpaData", dict_get result "cgpaData" (PList []))])))))))).

(** Lines 246-270: the entries of [resultData]. *)
Definition get_result_data (gpa : pyval) : outcome (list pyval) :=
  if truthy gpa then
    match py_iter gpa with
    | Ok items => normalize_gpa_records items
    | Raise e => Raise e
    end
  else Ok [].

(** Lines 179-272: a student was found. *)
Definition found_branch (result : dict) (roll_no : pyval) : M Response :=
  cgpa_data <- get_cgpa_data result roll_no ;;
  let result :=
    match cgpa_data with
    | [] => result
    | _ => dict_set result "cgpaData" (PList cgpa_data)
    end in
  gpa <- get_gpa_records result roll_no ;;
  document <- lift (transformed_data result) ;;
  entries <- lift (get_result_data gpa) ;;
  ret (jsonify (PDict (dict_set document "resultData" (PList entries)))).

(** The miss document of lines 281-289. *)
Definition miss_document (roll_no regulation program : pyval)
                         (order : list string) : pyval :=
  PDict [("success", PBool false);
         ("error", PStr "Student not found in any database or web API");
         ("roll", roll_no);
         ("regulation", regulation);
         ("exam", program);
         ("projects_searched", PList (map PStr order));
         ("web_apis_tried", PList [PStr "btebresulthub"])].

(** Lines 274-289: no student was found; the adapter is asked. *)
Definition fallback_branch (roll_no regulation program : pyval) : M Response :=
  web_result <- search_student_in_web_apis env roll_no regulation program ;;
  succeeded <-
    (if truthy web_result
     then success <- lift (py_get web_result "success" PNone) ;;
          ret (truthy success)
     else ret false) ;;
  if (succeeded : bool) then ret (jsonify web_result)
  else
    order <- get_search_order ;;
    ret (mk_response (miss_document roll_no regulation program order) 404).

(** Lines 173-289: the search in the sources, then one of the two
    branches.  [result and result.get('student_data')] is [result] itself
    when [result] is falsy. *)
Definition search_and_respond (roll_no regulation program : pyval)
  : M Response :=
  result <- search_student_across_projects env roll_no regulation program ;;
  student <-
    (if truthy result
     then lift (py_get result "student_data" PNone)
     else ret result) ;;
  if truthy student then
    match result with
    | PDict d => found_branch d roll_no
    | _ => raise (AttributeError result "get")
    end
  else fallback_branch roll_no regulation program.

(** Lines 157-289: the body of the [try]. *)
Definition search_result_body : M Response :=
  if negb (SUPABASE_AVAILABLE env)
  then ret (mk_response (error_document "Supabase not available") 500)
  else
    data <- lift (request_json env) ;;
    if negb (truthy data)
    then ret (mk_response (error_document "No JSON data provided") 400)
    else
      roll_no <- lift (py_get data "rollNo" PNone) ;;
      regulation <- lift (py_get data "regulation" PNone) ;;
      program <- lift (py_get data "program" PNone) ;;
      if negb (truthy roll_no && truthy regulation && truthy program)
      then ret (mk_response
                  (error_document
                     "Missing required fields: rollNo, regulation, program")
                  400)
      else search_and_respond roll_no regulation program.

(** Lines 156-293: the handler; every exception of the body becomes a 500
    response carrying its text. *)
Definition search_result : M Response :=
  try_except search_result_body
    (fun e => ret (mk_response (error_document (exn_text e)) 500)).

End Handler.

(** ** Reading a journal, and the vocabulary of the statements *)

Section Observations.
Context {R : PyRuntime}.

(** The sources asked for the student, oldest first. *)
Definition student_queries (j : list Event) : list string :=
  flat_map (fun ev => match ev with StudentQuery p _ _ _ => [p] | _ => [] end) j.

(** The sources asked for CGPA rows, oldest first. *)
Definition cgpa_queries (j : list Event) : list string :=
  flat_map (fun ev => match ev with CgpaQuery p _ => [p] | _ => [] end) j.

(** The sources asked for GPA rows, oldest first. *)
Definition gpa_queries (j : list Event) : list string :=
  flat_map (fun ev => match ev with GpaQuery p _ => [p] | _ => [] end) j.

(** The calls of the adapter, with the fields each was given. *)
Definition web_searches (j : list Event) : list (pyval * pyval * pyval) :=
  flat_map (fun ev => match ev with
                      | WebSearch roll regulation program =>
                          [(roll, regulation, program)]
                      | _ => []
                      end) j.

(** A source gives no match for the student: it is not registered, it has
    no such student, or one of its fetches fails. *)
Definition source_misses (env : Env) (m : Manager)
                         (roll regulation program : pyval) (name : string)
  : bool :=
  negb (registered name m)
  || match students env name roll regulation program with
     | Ok None => true
     | Raise _ => true
     | Ok (Some student) =>
         match institutes env name (dict_get student "institute_code" PNone) with
         | Raise _ => true
         | Ok _ => false
         end
     end.

(** A source gives no CGPA rows: it is not registered, its query raises, or
    the query finds nothing. *)
Definition no_cgpa (env : Env) (m : Manager) (roll : pyval) (name : string)
  : bool :=
  negb (registered name m)
  || match cgpa_records env name roll with
     | Ok [] => true
     | Ok _ => false
     | Raise _ => true
     end.

(** The result document of a student found in source [name]. *)
Definition store_result (student : dict) (institute : option dict)
                        (name : string) : dict :=
  [("student_data", PDict student);
   ("institute_data", match institute with Some i => PDict i | None => PNone end);
   ("project_name", PStr name);
   ("source", PStr "supabase")].

(** The world after some more outside calls, with [name] active. *)
Definition after (name : string) (events : list Event) (w : World) : World :=
  mk_world (mk_manager (projects (manager w)) name (search_order (manager w)))
           (journal w ++ events)%list.

Definition is_source_query (ev : Event) : bool :=
  match ev with
  | StudentQuery _ _ _ _ | InstituteQuery _ _ => true
  | _ => false
  end.

Definition is_cgpa_query (ev : Event) : bool :=
  match ev with
  | CgpaQuery _ _ => true
  | _ => false
  end.

(** The row has a value under each of [keys]. *)
Definition has_keys (keys : list string) (row : dict) : bool :=
  forallb (fun k => match lookup k row with Some _ => true | None => false end)
          keys.

(** The success document of section 6, field by field. *)
Definition success_document (roll regulation exam code name district : pyval)
                            (results : list pyval) (cgpa : pyval) : pyval :=
  PDict [("success", PBool true);
         ("roll", roll);
         ("regulation", regulation);
         ("exam", exam);
         ("instituteData",
          PDict [("code", code); ("name", name); ("district", district)]);
         ("resultData", PList results);
         ("cgpaData", cgpa)].

Definition is_success_document (document : pyval) : Prop :=
  exists roll regulation exam code name district results cgpa,
    document =
      success_document roll regulation exam code name district results cgpa.

(** The miss document of section 6. *)
Definition is_miss_document (document : pyval) : Prop :=
  exists roll regulation exam order,
    document = miss_document roll regulation exam order.

(** A document that only carries an error text. *)
Definition is_error_document (document : pyval) : Prop :=
  exists text, document = error_document text.

(** What the handler can answer: the success document, the document of the
    adapter, the miss document, or a document that only carries an error
    text. *)
Definition response_shape (resp : Response) : Prop :=
  (status resp = 200 /\ is_success_document (body resp))
  \/ (status resp = 200
      /\ exists d, body resp = PDict d
                   /\ truthy (dict_get d "success" PNone) = true)
  \/ (status resp = 404 /\ is_miss_document (body resp))
  \/ ((status resp = 400 \/ status resp = 500)
      /\ is_error_document (body resp)).

End Observations.

(** ** A runtime and a deployment to evaluate examples on

    Three sources, in the order [primary], [secondary], [archive], with
    [primary] active.  The student of the request is in [secondary] and in
    [archive], not in [primary].  Floats are carried as the text of their
    literal; none occurs in the examples. *)

Definition sample_runtime : PyRuntime :=
  {| pyfloat := string;
     float_str := fun text => text;
     float_bool := fun text => negb (text =? "0.0");
     float_of_literal := fun text => text;
     str_repr := fun s => "'" ++ s ++ "'" |}.

Section Samples.
#[local] Existing Instance sample_runtime.

Definition sample_roll : pyval := PStr "123456".
Definition sample_regulation : pyval := PStr "2016".
Definition sample_program : pyval := PStr "Diploma".

Definition sample_request : dict :=
  [("rollNo", sample_roll); ("regulation", sample_regulation);
   ("program", sample_program)].

Definition sample_student : dict :=
  [("roll_number", PStr "123456"); ("regulation_year", PStr "2016");
   ("program_name", PStr "Diploma"); ("institute_code", PStr "50001")].

Definition sample_institute : dict :=
  [("institute_code", PStr "50001"); ("name", PStr "Dhaka Polytechnic");
   ("district", PStr "Dhaka")].

Definition sample_gpa_rows : list dict :=
  [[("semester", PInt 1); ("gpa", PStr "3.50"); ("is_reference", PBool false);
    ("ref_subjects", PNone); ("created_at", PStr "2024-03-01T00:00:00Z")];
   [("semester", PInt 2); ("gpa", PNone); ("is_reference", PBool true);
    ("ref_subjects", PStr "Math,Physics")]].

Definition sample_cgpa_row : dict :=
  [("semester", PStr "Final"); ("cgpa", PStr "3.42");
   ("created_at", PStr "2024-09-01T00:00:00Z")].

Definition timeout_error : exn := mk_exn "ConnectionError" "timed out".

(** Who holds the student: every source but [primary]. *)
Definition sample_students (name : string) (_ _ _ : pyval)
  : outcome (option dict) :=
  if name =? "primary" then Ok None else Ok (Some sample_student).

(** Who holds CGPA rows: [primary] fails, [secondary] has none, [archive]
    has one. *)
Definition sample_cgpa (name : string) (_ : pyval) : outcome (list dict) :=
  if name =? "primary" then Raise timeout_error
  else if name =? "secondary" then Ok []
  else Ok [sample_cgpa_row].

(** The deployment, with a request body, the answer of the GPA query and
    the answer of the adapter left open. *)
Definition sample_env_with (request : outcome pyval)
    (gpa : outcome (list dict)) (adapter : outcome pyval) : Env :=
  {| SUPABASE_AVAILABLE := true;
     request_json := request;
     students := sample_students;
     institutes := fun _ _ => Ok (Some sample_institute);
     cgpa_records := sample_cgpa;
     gpa_records := fun _ _ => gpa;
     web_apis := fun _ _ _ => adapter |}.

Definition sample_env : Env :=
  sample_env_with (Ok (PDict sample_request)) (Ok sample_gpa_rows)
                  (Raise timeout_error).

(** As [sample_env], with the GPA query failing. *)
Definition sample_env_gpa_down : Env :=
  sample_env_with (Ok (PDict sample_request)) (Raise timeout_error)
                  (Raise timeout_error).

(** As [sample_env], with the stored rows lacking a timestamp value. *)
Definition sample_env_null_stamp : Env :=
  sample_env_with (Ok (PDict sample_request))
                  (Ok [[("semester", PInt 1); ("gpa", PStr "3.50");
                        ("created_at", PNone)]])
                  (Raise timeout_error).

(** No source holds the student. *)
Definition sample_env_miss (adapter : outcome pyval) : Env :=
  {| SUPABASE_AVAILABLE := true;
     request_json := Ok (PDict sample_request);
     students := fun _ _ _ _ => Ok None;
     institutes := fun _ _ => Ok None;
     cgpa_records := fun _ _ => Ok [];
     gpa_records := fun _ _ => Ok [];
     web_apis := fun _ _ _ => adapter |}.

Definition sample_world : World :=
  mk_world (mk_manager ["primary"; "secondary"; "archive"] "primary"
                       ["primary"; "secondary"; "archive"]) [].

(** The [publishedAt] of each entry of [resultData] in a response. *)
Definition published_stamps (o : outcome Response) : option (list (option pyval)) :=
  match o with
  | Ok resp =>
      match field "resultData" (body resp) with
      | Some (PList entries) => Some (map (field "publishedAt") entries)
      | _ => None
      end
  | Raise _ => None
  end.

End Samples.

(** ** The other handlers of [api.py] *)

Section Site.
Context {R : PyRuntime}.

(** What the other handlers read from outside: the attributes of the
    registered sources, the answers of the probe and of the regulations
    query, the answer of the adapter's self-test, and the environment of
    the process. *)
Record Site : Type := mk_site {
  (** [project.description] of the source registered under a name *)
  project_description : string -> string;
  (** [project.url] of the source registered under a name *)
  project_url : string -> string;
  (** [supabase.table('programs').select('*').limit(1).execute().data] on
      one source *)
  programs : string -> outcome (list dict);
  (** the rows of [regulations] for a program name on one source *)
  regulations : string -> string -> outcome (list dict);
  (** [test_web_api_connections()] *)
  web_api_connections : outcome pyval;
  (** [os.getenv(name)], [None] for a variable that is not set *)
  environ : string -> option string
}.

End Site.

Section OtherHandlers.
Context {R : PyRuntime}.
Variable env : Env.
Variable site : Site.

(** [try: m  finally: final]: [final] runs whatever [m] gave; an exception
    of [final] replaces the outcome of [m]. *)
Definition try_finally {A : Type} (m : M A) (final : M unit) : M A :=
  fun w =>
    match m w with
    | (o, w1) =>
        match final w1 with
        | (Ok _, w2) => (o, w2)
        | (Raise e, w2) => (Raise e, w2)
        end
    end.

(** Reading the attributes of [supabase_manager]. *)
Definition get_manager : M Manager := fun w => (Ok (manager w), w).

(** The probe of lines 43, 96 and 332, on the active source. *)
Definition probe_programs : M (list dict) :=
  supabase <- get_supabase_client ;;
  lift (programs site supabase).

Definition unavailable : Response :=
  mk_response (error_document "Supabase not available") 500.

Definition unhealthy (text : string) : Response :=
  mk_response (PDict [("status", PStr "unhealthy");
                      ("supabase_connected", PBool false);
                      ("error", PStr text)]) 500.

(** Lines 31-59. *)
Definition health_check : M Response :=
  try_except
    (if negb (SUPABASE_AVAILABLE env)
     then ret (unhealthy "Supabase modules not available")
     else
       probe_programs ;;;
       m <- get_manager ;;
       ret (jsonify (PDict
         [("status", PStr "healthy");
          ("supabase_connected", PBool true);
          ("database", PStr "supabase");
          ("current_project", PStr (current_project m));
          ("available_projects", PList (map PStr (projects m)));
          ("message",
           PStr "API server is running and connected to Supabase (Production Ready)")])))
    (fun e => ret (unhealthy (exn_text e))).

(** The entry of one source in the listing of lines 69-75. *)
Definition project_entry (current name : string) : pyval :=
  PDict [("name", PStr name);
         ("description", PStr (project_description site name));
         ("url", PStr (project_url site name));
         ("is_active", PBool (name =? current))].

(** Lines 62-78. *)
Definition list_projects : M Response :=
  try_except
    (if negb (SUPABASE_AVAILABLE env) then ret unavailable
     else
       m <- get_manager ;;
       ret (jsonify (PDict
         (fold_left
            (fun projects_info name =>
               dict_set projects_info name
                        (project_entry (current_project m) name))
            (projects m) []))))
    (fun e => ret (mk_response (error_document (exn_text e)) 500)).

Definition not_found (project_name : string) : Response :=
  mk_response (error_document ("Project " ++ project_name ++ " not found")) 404.

(** Lines 81-108. *)
Definition test_project (project_name : string) : M Response :=
  try_except
    (if negb (SUPABASE_AVAILABLE env) then ret unavailable
     else
       m <- get_manager ;;
       if negb (registered project_name m) then ret (not_found project_name)
       else
         let original_project := current_project m in
         switch_project (PStr project_name) ;;;
         try_finally
           (probe_programs ;;;
            ret (jsonify (PDict
              [("project", PStr project_name);
               ("status", PStr "connected");
               ("message", PStr "Project connection successful")])))
           (switch_project (PStr original_project) ;;; ret tt))
    (fun e => ret (mk_response (error_document (exn_text e)) 500)).

(** Lines 111-127: the handler named [switch_project] in api.py; the name
    is taken here by the manager's method it calls. *)
Definition switch_project_route (project_name : string) : M Response :=
  try_except
    (if negb (SUPABASE_AVAILABLE env) then ret unavailable
     else
       m <- get_manager ;;
       if negb (registered project_name m) then ret (not_found project_name)
       else
         switch_project (PStr project_name) ;;;
         ret (jsonify (PDict
           [("message", PStr ("Switched to project: " ++ project_name));
            ("current_project", PStr project_name)])))
    (fun e => ret (mk_response (error_document (exn_text e)) 500)).


(** [[row[k] for row in rows]]: the first row without the key raises. *)
Fixpoint column (k : string) (rows : list dict) : outcome (list pyval) :=
  match rows with
  | [] => Ok []
  | row :: rest =>
      match py_getitem (PDict row) k with
      | Ok v =>
          match column k rest with
          | Ok vs => Ok (v :: vs)
          | Raise e => Raise e
          end
      | Raise e => Raise e
      end
  end.

(** Lines 296-308. *)
Definition get_regulations (program : string) : M Response :=
  try_except
    (if negb (SUPABASE_AVAILABLE env) then ret unavailable
     else
       supabase <- get_supabase_client ;;
       rows <- lift (regulations site supabase program) ;;
       years <- lift (column "regulation_year" rows) ;;
       ret (jsonify (PDict [("regulations", PList years)])))
    (fun e => ret (mk_response (error_document (exn_text e)) 500)).

(** [os.getenv(name, 'NOT_SET')] *)
Definition getenv_or_not_set (name : string) : string :=
  match environ site name with
  | Some value => value
  | None => "NOT_SET"
  end.

(** Lines 320 and 322: [os.getenv(name, 'NOT_SET')[:20] + '...' if
    os.getenv(name) else 'NOT_SET'].  The condition is on the whole sum.
    A key is a token of one-byte characters, so the slice takes the same
    twenty here as there. *)
Definition masked_key (name : string) : string :=
  match environ site name with
  | Some value =>
      if negb (value =? "")
      then substring 0 20 (getenv_or_not_set name) ++ "..."
      else "NOT_SET"
  | None => "NOT_SET"
  end.

(** Lines 311-340. *)
Definition debug_info : M Response :=
  try_except
    (if negb (SUPABASE_AVAILABLE env) then ret unavailable
     else
       m <- get_manager ;;
       let info : dict :=
         [("environment_variables",
           PDict [("SUPABASE_PRIMARY_URL",
                   PStr (getenv_or_not_set "SUPABASE_PRIMARY_URL"));
                  ("SUPABASE_PRIMARY_KEY",
                   PStr (masked_key "SUPABASE_PRIMARY_KEY"));
                  ("SUPABASE_SECONDARY_URL",
                   PStr (getenv_or_not_set "SUPABASE_SECONDARY_URL"));
                  ("SUPABASE_SECONDARY_KEY",
                   PStr (masked_key "SUPABASE_SECONDARY_KEY"))]);
          ("loaded_projects", PList (map PStr (projects m)));
          ("current_project", PStr (current_project m));
          ("search_order", PList (map PStr (search_order m)))] in
       info <-
         try_except
           (data <- probe_programs ;;
            let info := dict_set info "supabase_connection" (PStr "SUCCESS") in
            ret (dict_set info "test_query_result"
                          (PInt (Z.of_nat (List.length data)))))
           (fun e =>
              ret (dict_set info "supabase_connection"
                            (PStr ("FAILED: " ++ exn_text e)))) ;;
       ret (jsonify (PDict info)))
    (fun e => ret (mk_response (error_document (exn_text e)) 500)).

End OtherHandlers.

(** ** More vocabulary for the statements *)

Section MoreObservations.
Context {R : PyRuntime}.

(** [w'] is [w] after the outside calls [events]: the registered names and
    the search order are the same, the journal has grown by [events], and
    the active source is the same or a registered one. *)
Definition reachable (w w' : World) (events : list Event) : Prop :=
  exists name,
    w' = after name events w
    /\ (name = current_project (manager w)
        \/ registered name (manager w) = true).

(** The request body is an object with a truthy value under each of the
    three fields. *)
Definition request_is_complete (env : Env) : bool :=
  match request_json env with
  | Ok (PDict data) =>
      truthy (dict_get data "rollNo" PNone)
      && truthy (dict_get data "regulation" PNone)
      && truthy (dict_get data "program" PNone)
  | _ => false
  end.

(** The calls of one request: the adapter at most once, GPA rows asked at
    most once, and the adapter only when no CGPA or GPA rows were asked. *)
Definition within_budget (events : list Event) : Prop :=
  length (web_searches events) <= 1
  /\ length (gpa_queries events) <= 1
  /\ (web_searches events = []
      \/ (gpa_queries events = [] /\ cgpa_queries events = [])).

(** Two worlds with the same registered names and the same search order;
    the active source and the journal may differ. *)
Definition same_registry (w1 w2 : World) : Prop :=
  projects (manager w1) = projects (manager w2)
  /\ search_order (manager w1) = search_order (manager w2).

(** A computation that does not look at the active source nor at the
    journal: from two such worlds it gives the same outcome, and leaves two
    such worlds. *)
Definition blind {A : Type} (m : M A) : Prop :=
  forall w1 w2 : World,
    same_registry w1 w2 ->
    fst (m w1) = fst (m w2) /\ same_registry (snd (m w1)) (snd (m w2)).

Definition is_dict (v : pyval) : bool :=
  match v with PDict _ => true | _ => false end.

End MoreObservations.

Section MoreSamples.
#[local] Existing Instance sample_runtime.

(** The sources answer the probe, but for [archive]; [secondary] has two
    regulations for the sample program. *)
Definition sample_site : Site :=
  {| project_description := fun name => "Results database " ++ name;
     project_url := fun name => "https://" ++ name ++ ".supabase.co";
     programs := fun name =>
       if name =? "archive" then Raise timeout_error else Ok [];
     regulations := fun name _ =>
       if name =? "secondary"
       then Ok [[("regulation_year", PStr "2016")];
                [("regulation_year", PStr "2022")]]
       else Ok [];
     web_api_connections := Ok (PDict [("btebresulthub", PBool true)]);
     environ := fun name =>
       if name =? "SUPABASE_PRIMARY_KEY" then Some "short-key" else None |}.


(** As [sample_env], with no source holding CGPA rows. *)
Definition sample_env_no_cgpa : Env :=
  {| SUPABASE_AVAILABLE := true;
     request_json := Ok (PDict sample_request);
     students := sample_students;
     institutes := fun _ _ => Ok (Some sample_institute);
     cgpa_records := fun _ _ => Ok [];
     gpa_records := fun _ _ => Ok sample_gpa_rows;
     web_apis := fun _ _ _ => Raise timeout_error |}.

(** A result as the adapter's channel would give it, with one good
    record. *)
Definition sample_web_result : dict :=
  [("student_data", PDict sample_student);
   ("institute_data", PDict sample_institute);
   ("source", PStr "web_api_btebresulthub");
   ("gpa_records",
    PList [PDict [("semester", PInt 1); ("gpa", PStr "3.50")]])].

End MoreSamples.

(** * Properties *)

(** ** Dictionaries *)

Section DictFacts.
Context {R : PyRuntime}.

Lemma lookup_dict_set_same (d : dict) (k : string) (v : pyval) :
  lookup k (dict_set d k v) = Some v.
Proof.
  induction d as [| [k' v'] rest IH]; simpl.
  - now rewrite String.eqb_refl.
  - destruct (k =? k') eqn:E; simpl.
    + now rewrite String.eqb_refl.
    + now rewrite E.
Qed.

Lemma lookup_dict_set_other (d : dict) (k k' : string) (v : pyval) :
  k <> k' -> lookup k (dict_set d k' v) = lookup k d.
Proof.
  intros Hne. induction d as [| [k0 v0] rest IH]; simpl.
  - destruct (String.eqb_spec k k'); [contradiction | reflexivity].
  - destruct (String.eqb_spec k' k0) as [-> | Hk0]; simpl.
    + destruct (String.eqb_spec k k0); [contradiction | reflexivity].
    + destruct (String.eqb_spec k k0); [reflexivity | exact IH].
Qed.

Lemma dict_get_dict_set_other (d : dict) (k k' : string) (v default : pyval) :
  k <> k' -> dict_get (dict_set d k' v) k default = dict_get d k default.
Proof.
  intros Hne. unfold dict_get. now rewrite lookup_dict_set_other.
Qed.

End DictFacts.

(** ** The normalizer *)

Section NormalizerFacts.
Context {R : PyRuntime}.

Lemma gpa_text_lookup (gpa_record : dict) :
  gpa_text gpa_record =
  match lookup "gpa" gpa_record with
  | Some v => if is_none v then "ref" else py_str v
  | None => "ref"
  end.
Proof.
  unfold gpa_text, dict_get.
  destruct (lookup "gpa" gpa_record) as [v |]; [| reflexivity].
  now destruct (is_none v).
Qed.

Lemma normalize_rows (rows : list dict) :
  normalize_gpa_records (map PDict rows) = Ok (map semester_result rows).
Proof.
  induction rows as [| row rest IH]; simpl; [reflexivity |].
  now rewrite IH.
Qed.

Lemma get_result_data_rows (rows : list dict) :
  get_result_data (PList (map PDict rows)) = Ok (map semester_result rows).
Proof.
  unfold get_result_data. destruct rows as [| row rest]; [reflexivity |].
  change (truthy (PList (map PDict (row :: rest)))) with true. cbv iota.
  unfold py_iter. apply normalize_rows.
Qed.

(** C2, as the code has it.  A string is what [json.loads] makes of it; when
    decoding fails, a non-empty string is wrapped as a one-element list and
    the empty string gives the empty list.  So the bare string of the
    specification is wrapped, the encoded list is decoded, null gives the
    empty list and a list is returned as it is.  No input makes the decoder
    raise, and every dict row is normalized. *)
Theorem decode_ref_subjects_shapes :
  (forall s : string,
     decode_ref_subjects (PStr s) =
     match json_loads s with
     | Some decoded => decoded
     | None => if s =? "" then PList [] else PList [PStr s]
     end)
  /\ decode_ref_subjects (PStr "Math,Physics") = PList [PStr "Math,Physics"]
  /\ decode_ref_subjects
       (PStr (String "[" (String double_quote
                ("Math" ++ String double_quote
                   (String "," (String double_quote
                      ("Physics" ++ String double_quote "]")))))))
     = PList [PStr "Math"; PStr "Physics"]
  /\ decode_ref_subjects PNone = PList []
  /\ (forall l : list pyval, decode_ref_subjects (PList l) = PList l)
  /\ (forall row : dict, normalize_gpa_record (PDict row) = Ok (semester_result row)).
Proof.
  repeat split; try reflexivity.
  intros s. unfold decode_ref_subjects.
  destruct (json_loads s); [reflexivity |].
  simpl. now destruct (s =? "").
Qed.

(** C3.  In the entry built for a GPA row, both [gpa] fields read "ref" when
    the row's [gpa] is null and the string form of the value otherwise, and
    [passed] is the negation of the row's [is_reference] flag. *)
Theorem semester_result_gpa_and_passed
    (gpa_record : dict) (gpa : pyval) (is_reference : bool) :
  lookup "gpa" gpa_record = Some gpa ->
  lookup "is_reference" gpa_record = Some (PBool is_reference) ->
  let entry := semester_result gpa_record in
  let shown := if is_none gpa then "ref" else py_str gpa in
  field "gpa" entry = Some (PStr shown)
  /\ (exists result, field "result" entry = Some result
                     /\ field "gpa" result = Some (PStr shown))
  /\ field "passed" entry = Some (PBool (negb is_reference)).
Proof.
  intros Hgpa Hflag entry shown. subst entry shown.
  unfold semester_result. simpl.
  rewrite gpa_text_lookup, Hgpa.
  split; [reflexivity |]. split.
  - eexists. split; reflexivity.
  - unfold dict_get. now rewrite Hflag.
Qed.

(** C9, as the code has it.  The [publishedAt] of a GPA entry and of a CGPA
    entry is always present: it is the row's [created_at] when the row has
    that key, whatever the value, null included, and the fixed timestamp
    when the key is absent.  This holds for every entry made from the rows
    of a store. *)
Theorem publishedAt_from_created_at (rows : list dict) :
  let stamp (row : dict) :=
    match lookup "created_at" row with
    | Some t => t
    | None => PStr "2025-01-01T00:00:00Z"
    end in
  get_result_data (PList (map PDict rows)) = Ok (map semester_result rows)
  /\ Forall (fun row =>
               field "publishedAt" (semester_result row) = Some (stamp row)
               /\ field "publishedAt" (cgpa_entry row) = Some (stamp row))
            rows.
Proof.
  intros stamp. split; [apply get_result_data_rows |].
  apply Forall_forall. intros row _. split; reflexivity.
Qed.

(** C10.  A GPA row without a [gpa] key is normalized exactly as the same
    row with [gpa] set to null: both [gpa] fields read "ref".  The default
    "0.00" of the code never shows: the text is "ref" or the string form of
    a value the row holds. *)
Theorem gpa_absent_is_null (gpa_record : dict) :
  lookup "gpa" gpa_record = None ->
  semester_result gpa_record = semester_result (dict_set gpa_record "gpa" PNone)
  /\ field "gpa" (semester_result gpa_record) = Some (PStr "ref")
  /\ (exists result, field "result" (semester_result gpa_record) = Some result
                     /\ field "gpa" result = Some (PStr "ref"))
  /\ (forall row : dict,
        gpa_text row = "ref"
        \/ exists v, lookup "gpa" row = Some v /\ v <> PNone
                     /\ gpa_text row = py_str v).
Proof.
  intros Habsent.
  assert (Htext : gpa_text gpa_record = "ref")
    by (rewrite gpa_text_lookup, Habsent; reflexivity).
  assert (Htext' : gpa_text (dict_set gpa_record "gpa" PNone) = "ref")
    by (rewrite gpa_text_lookup, lookup_dict_set_same; reflexivity).
  repeat split.
  - unfold semester_result. rewrite Htext, Htext'.
    rewrite !dict_get_dict_set_other by discriminate. reflexivity.
  - unfold semester_result. simpl. now rewrite Htext.
  - unfold semester_result. simpl. eexists. split; [reflexivity |].
    simpl. now rewrite Htext.
  - intros row. rewrite gpa_text_lookup.
    destruct (lookup "gpa" row) as [v |]; [| now left].
    destruct v; simpl; try (now left);
      right; eexists; (split; [reflexivity |]); split;
        (discriminate || reflexivity).
Qed.

End NormalizerFacts.

(** ** Running the collaborators *)

Section RunFacts.
Context {R : PyRuntime}.
Variable env : Env.

Lemma after_after (n1 n2 : string) (e1 e2 : list Event) (w : World) :
  after n2 e2 (after n1 e1 w) = after n2 (e1 ++ e2)%list w.
Proof. unfold after. simpl. now rewrite app_assoc. Qed.

Lemma after_same (w : World) :
  after (current_project (manager w)) [] w = w.
Proof.
  destruct w as [[ps cur order] j]. unfold after. simpl. now rewrite app_nil_r.
Qed.

Lemma try_source_run (name : string) (roll regulation program : pyval) (w : World) :
  try_source env name roll regulation program w =
  if registered name (manager w) then
    match students env name roll regulation program with
    | Ok (Some student) =>
        let code := dict_get student "institute_code" PNone in
        let events := [StudentQuery name roll regulation program;
                       InstituteQuery name code] in
        match institutes env name code with
        | Ok institute =>
            (Ok (Some (PDict (store_result student institute name))),
             after name events w)
        | Raise _ => (Ok None, after name events w)
        end
    | _ => (Ok None, after name [StudentQuery name roll regulation program] w)
    end
  else (Ok None, w).
Proof.
  unfold try_source, try_except, bind, switch_project, get_supabase_client,
    find_student, find_institute, log, lift, ret, after, set_current.
  destruct (registered name (manager w)); [| reflexivity]. simpl.
  destruct (students env name roll regulation program) as [[student |] | e];
    simpl; try reflexivity.
  destruct (institutes env name (dict_get student "institute_code" PNone));
    simpl; rewrite <- app_assoc; reflexivity.
Qed.

Lemma student_queries_app (j1 j2 : list Event) :
  student_queries (j1 ++ j2) = (student_queries j1 ++ student_queries j2)%list.
Proof. apply flat_map_app. Qed.

(** When no source of [names] gives a match, all the registered ones are
    asked, in order, and the search ends without a result. *)
Lemma search_sources_miss (roll regulation program : pyval) (names : list string) :
  forall w : World,
    forallb (source_misses env (manager w) roll regulation program) names = true ->
    exists name events,
      search_sources env names roll regulation program w
      = (Ok None, after name events w)
      /\ student_queries events
         = filter (fun q => registered q (manager w)) names
      /\ forallb is_source_query events = true.
Proof.
  induction names as [| q rest IH]; intros w Hmiss.
  - exists (current_project (manager w)), []. now rewrite after_same.
  - simpl in Hmiss. apply andb_prop in Hmiss as [Hq Hrest].
    simpl search_sources. unfold bind. rewrite try_source_run. cbv zeta.
    unfold source_misses in Hq. simpl filter.
    destruct (registered q (manager w)) eqn:Ereg.
    + simpl in Hq.
      destruct (students env q roll regulation program) as [[student |] | e].
      * destruct (institutes env q (dict_get student "institute_code" PNone))
          as [institute | e]; [discriminate |].
        cbv beta iota zeta.
        destruct (IH (after q [StudentQuery q roll regulation program;
                               InstituteQuery q (dict_get student "institute_code" PNone)] w)
                     Hrest)
          as (name & events & Hrun & Hqs & Hev).
        rewrite Hrun, after_after. do 2 eexists. split; [reflexivity |].
        split; [| exact Hev]. simpl. now rewrite Hqs.
      * cbv beta iota zeta.
        destruct (IH (after q [StudentQuery q roll regulation program] w) Hrest)
          as (name & events & Hrun & Hqs & Hev).
        rewrite Hrun, after_after. do 2 eexists. split; [reflexivity |].
        split; [| exact Hev]. simpl. now rewrite Hqs.
      * cbv beta iota zeta.
        destruct (IH (after q [StudentQuery q roll regulation program] w) Hrest)
          as (name & events & Hrun & Hqs & Hev).
        rewrite Hrun, after_after. do 2 eexists. split; [reflexivity |].
        split; [| exact Hev]. simpl. now rewrite Hqs.
    + cbv beta iota zeta.
      destruct (IH w Hrest) as (name & events & Hrun & Hqs & Hev).
      rewrite Hrun. do 2 eexists. split; [reflexivity |]. now split.
Qed.

(** When the sources of [pre] give no match and [p] does, the registered
    sources of [pre] and then [p] are asked, in order, and nothing after
    [p] is. *)
Lemma search_sources_hit (roll regulation program : pyval)
    (pre post : list string) (p : string) (student : dict)
    (institute : option dict) (w : World) :
  forallb (source_misses env (manager w) roll regulation program) pre = true ->
  registered p (manager w) = true ->
  students env p roll regulation program = Ok (Some student) ->
  institutes env p (dict_get student "institute_code" PNone) = Ok institute ->
  exists events,
    search_sources env (pre ++ p :: post) roll regulation program w
    = (Ok (Some (PDict (store_result student institute p))), after p events w)
    /\ student_queries events
       = (filter (fun q => registered q (manager w)) pre ++ [p])%list
    /\ forallb is_source_query events = true.
Proof.
  revert w. induction pre as [| q rest IH]; intros w Hmiss Hreg Hstudent Hinst.
  - simpl. unfold bind. rewrite try_source_run, Hreg, Hstudent.
    cbv beta iota zeta. rewrite Hinst. eexists. split; [reflexivity |]. now split.
  - simpl in Hmiss. apply andb_prop in Hmiss as [Hq Hrest].
    simpl. unfold bind. rewrite try_source_run. cbv zeta.
    unfold source_misses in Hq.
    destruct (registered q (manager w)) eqn:Ereg.
    + simpl in Hq.
      destruct (students env q roll regulation program) as [[student' |] | e].
      * destruct (institutes env q (dict_get student' "institute_code" PNone))
          as [institute' | e]; [discriminate |].
        cbv beta iota zeta.
        destruct (IH (after q [StudentQuery q roll regulation program;
                               InstituteQuery q (dict_get student' "institute_code" PNone)] w)
                     Hrest Hreg Hstudent Hinst)
          as (events & Hrun & Hqs & Hev).
        rewrite Hrun, after_after. eexists. split; [reflexivity |].
        split; [| exact Hev]. simpl. now rewrite Hqs.
      * cbv beta iota zeta.
        destruct (IH (after q [StudentQuery q roll regulation program] w)
                     Hrest Hreg Hstudent Hinst)
          as (events & Hrun & Hqs & Hev).
        rewrite Hrun, after_after. eexists. split; [reflexivity |].
        split; [| exact Hev]. simpl. now rewrite Hqs.
      * cbv beta iota zeta.
        destruct (IH (after q [StudentQuery q roll regulation program] w)
                     Hrest Hreg Hstudent Hinst)
          as (events & Hrun & Hqs & Hev).
        rewrite Hrun, after_after. eexists. split; [reflexivity |].
        split; [| exact Hev]. simpl. now rewrite Hqs.
    + cbv beta iota zeta.
      destruct (IH w Hrest Hreg Hstudent Hinst) as (events & Hrun & Hqs & Hev).
      rewrite Hrun. eexists. split; [reflexivity |]. now split.
Qed.

End RunFacts.

(** ** What the loops leave in the journal *)

Section LoopFacts.
Context {R : PyRuntime}.
Variable env : Env.

Lemma source_queries_only (events : list Event) :
  forallb is_source_query events = true ->
  cgpa_queries events = [] /\ gpa_queries events = []
  /\ web_searches events = [].
Proof.
  induction events as [| ev rest IH]; intros H; [now repeat split |].
  simpl in H. apply andb_prop in H as [Hev Hrest].
  destruct (IH Hrest) as (Hc & Hg & Hw).
  now destruct ev; try discriminate; simpl; repeat split.
Qed.

Lemma cgpa_queries_only (events : list Event) :
  forallb is_cgpa_query events = true ->
  student_queries events = [] /\ gpa_queries events = []
  /\ web_searches events = [].
Proof.
  induction events as [| ev rest IH]; intros H; [now repeat split |].
  simpl in H. apply andb_prop in H as [Hev Hrest].
  destruct (IH Hrest) as (Hc & Hg & Hw).
  now destruct ev; try discriminate; simpl; repeat split.
Qed.

Lemma set_current_after (original name : string) (events : list Event)
    (w : World) :
  set_current original (after name events w) = after original events w.
Proof. reflexivity. Qed.

(** The resolver on a miss: every registered source was asked, and the
    active source is the one that was active before. *)
Lemma resolver_miss (roll regulation program : pyval) (w : World) :
  forallb (source_misses env (manager w) roll regulation program)
          (search_order (manager w)) = true ->
  exists events,
    search_student_across_projects env roll regulation program w
    = (Ok PNone, after (current_project (manager w)) events w)
    /\ student_queries events
       = filter (fun q => registered q (manager w)) (search_order (manager w))
    /\ forallb is_source_query events = true.
Proof.
  intros Hmiss. unfold search_student_across_projects.
  destruct (search_sources_miss env roll regulation program _ w Hmiss)
    as (name & events & Hrun & Hqs & Hev).
  rewrite Hrun. exists events. now rewrite set_current_after.
Qed.

(** The resolver on a hit in [p]: the sources before [p] and [p] were asked,
    and the active source is the one that was active before. *)
Lemma resolver_hit (roll regulation program : pyval)
    (pre post : list string) (p : string) (student : dict)
    (institute : option dict) (w : World) :
  search_order (manager w) = (pre ++ p :: post)%list ->
  forallb (source_misses env (manager w) roll regulation program) pre = true ->
  registered p (manager w) = true ->
  students env p roll regulation program = Ok (Some student) ->
  institutes env p (dict_get student "institute_code" PNone) = Ok institute ->
  exists events,
    search_student_across_projects env roll regulation program w
    = (Ok (PDict (store_result student institute p)),
       after (current_project (manager w)) events w)
    /\ student_queries events
       = (filter (fun q => registered q (manager w)) pre ++ [p])%list
    /\ forallb is_source_query events = true.
Proof.
  intros Horder Hmiss Hreg Hstudent Hinst.
  unfold search_student_across_projects. rewrite Horder.
  destruct (search_sources_hit env roll regulation program pre post p student
              institute w Hmiss Hreg Hstudent Hinst)
    as (events & Hrun & Hqs & Hev).
  rewrite Hrun. exists events. now rewrite set_current_after.
Qed.

(** One turn of the CGPA loop. *)
Lemma cgpa_lookup_cons (q : string) (rest : list string) (roll : pyval)
    (w : World) :
  cgpa_lookup env (q :: rest) roll w =
  if registered q (manager w) then
    match cgpa_records env q roll with
    | Ok (row :: rows) =>
        (Ok (map cgpa_entry (row :: rows)), after q [CgpaQuery q roll] w)
    | _ => cgpa_lookup env rest roll (after q [CgpaQuery q roll] w)
    end
  else cgpa_lookup env rest roll w.
Proof.
  simpl cgpa_lookup.
  unfold try_except, bind, switch_project, get_supabase_client,
    select_cgpa_records, log, lift, ret, after, set_current.
  destruct (registered q (manager w)); [| reflexivity]. simpl.
  destruct (cgpa_records env q roll) as [[| row rows] | e]; reflexivity.
Qed.

(** The CGPA loop never raises, and only sends CGPA queries. *)
Lemma cgpa_lookup_total (roll : pyval) (names : list string) :
  forall w : World,
  exists cgpa_data name events,
    cgpa_lookup env names roll w = (Ok cgpa_data, after name events w)
    /\ forallb is_cgpa_query events = true.
Proof.
  induction names as [| q rest IH]; intros w.
  - exists [], (current_project (manager w)), []. now rewrite after_same.
  - rewrite cgpa_lookup_cons.
    destruct (registered q (manager w)); [| apply IH].
    destruct (cgpa_records env q roll) as [[| row rows] | e].
    + destruct (IH (after q [CgpaQuery q roll] w))
        as (data & name & events & Hrun & Hev).
      rewrite Hrun, after_after. now do 3 eexists.
    + now do 3 eexists.
    + destruct (IH (after q [CgpaQuery q roll] w))
        as (data & name & events & Hrun & Hev).
      rewrite Hrun, after_after. now do 3 eexists.
Qed.

(** When the sources of [pre] give no CGPA rows and [p] gives some, the
    registered sources of [pre] and then [p] are asked, in order, and
    nothing after [p] is. *)
Lemma cgpa_lookup_hit (roll : pyval) (pre post : list string) (p : string)
    (row : dict) (rows : list dict) :
  forall w : World,
    forallb (no_cgpa env (manager w) roll) pre = true ->
    registered p (manager w) = true ->
    cgpa_records env p roll = Ok (row :: rows) ->
    exists events,
      cgpa_lookup env (pre ++ p :: post) roll w
      = (Ok (map cgpa_entry (row :: rows)), after p events w)
      /\ cgpa_queries events
         = (filter (fun q => registered q (manager w)) pre ++ [p])%list
      /\ forallb is_cgpa_query events = true.
Proof.
  induction pre as [| q rest IH]; intros w Hnone Hreg Hrows.
  - simpl app. rewrite cgpa_lookup_cons, Hreg, Hrows.
    eexists. split; [reflexivity |]. now split.
  - simpl in Hnone. apply andb_prop in Hnone as [Hq Hrest].
    simpl app. rewrite cgpa_lookup_cons. simpl filter.
    unfold no_cgpa in Hq.
    destruct (registered q (manager w)) eqn:Ereg.
    + simpl in Hq.
      destruct (cgpa_records env q roll) as [[| row' rows'] | e];
        try discriminate;
        destruct (IH (after q [CgpaQuery q roll] w) Hrest Hreg Hrows)
          as (events & Hrun & Hqs & Hev);
        rewrite Hrun, after_after; eexists; (split; [reflexivity |]);
        (split; [| exact Hev]); simpl; now rewrite Hqs.
    + destruct (IH w Hrest Hreg Hrows) as (events & Hrun & Hqs & Hev).
      rewrite Hrun. eexists. split; [reflexivity |]. now split.
Qed.

(** The GPA fetch never raises.  It asks the source named in the result, if
    that source is registered, and nobody otherwise. *)
Lemma fetch_gpa_records_run (result : dict) (roll : pyval) (w : World) :
  fetch_gpa_records env result roll w =
  match dict_get result "project_name" (PStr "primary") with
  | PStr p =>
      if registered p (manager w) then
        (Ok (match gpa_records env p roll with
             | Ok rows => PList (map PDict rows)
             | Raise _ => PList []
             end),
         after p [GpaQuery p roll] w)
      else (Ok (PList []), w)
  | _ => (Ok (PList []), w)
  end.
Proof.
  unfold fetch_gpa_records, try_except, bind, switch_project,
    get_supabase_client, select_gpa_records, log, lift, ret, after, set_current.
  destruct (dict_get result "project_name" (PStr "primary")); try reflexivity.
  destruct (registered s (manager w)); [| reflexivity]. simpl.
  destruct (gpa_records env s roll); reflexivity.
Qed.

End LoopFacts.

(** ** The handler, branch by branch *)

Section HandlerFacts.
Context {R : PyRuntime}.
Variable env : Env.

Lemma has_key_lookup (k : string) (keys : list string) (row : dict) :
  has_keys keys row = true -> In k keys ->
  lookup k row = Some (dict_get row k PNone).
Proof.
  unfold has_keys. rewrite forallb_forall. intros Hall Hin.
  specialize (Hall k Hin). unfold dict_get.
  now destruct (lookup k row).
Qed.

(** The document made from a student row and an institute row that have the
    columns the handler reads. *)
Lemma transformed_data_rows (result student institute : dict) :
  lookup "student_data" result = Some (PDict student) ->
  lookup "institute_data" result = Some (PDict institute) ->
  has_keys ["roll_number"; "regulation_year"; "program_name"] student = true ->
  has_keys ["institute_code"; "name"; "district"] institute = true ->
  transformed_data result =
  Ok [("success", PBool true);
      ("roll", dict_get student "roll_number" PNone);
      ("regulation", dict_get student "regulation_year" PNone);
      ("exam", dict_get student "program_name" PNone);
      ("instituteData",
       PDict [("code", dict_get institute "institute_code" PNone);
              ("name", dict_get institute "name" PNone);
              ("district", dict_get institute "district" PNone)]);
      ("resultData", PList []);
      ("cgpaData", dict_get result "cgpaData" (PList []))].
Proof.
  intros Hs Hi Hsk Hik. unfold transformed_data, py_getitem.
  rewrite Hs, Hi.
  rewrite (has_key_lookup "roll_number" _ _ Hsk) by (simpl; tauto).
  rewrite (has_key_lookup "regulation_year" _ _ Hsk) by (simpl; tauto).
  rewrite (has_key_lookup "program_name" _ _ Hsk) by (simpl; tauto).
  rewrite (has_key_lookup "institute_code" _ _ Hik) by (simpl; tauto).
  rewrite (has_key_lookup "name" _ _ Hik) by (simpl; tauto).
  rewrite (has_key_lookup "district" _ _ Hik) by (simpl; tauto).
  reflexivity.
Qed.

(** The found branch on the result of a store hit in [p]: CGPA rows are
    looked for in search order, GPA rows are asked of [p] only, and [p] is
    the active source at the end. *)
Lemma found_branch_store (student institute : dict) (p : string)
    (roll : pyval) (w : World) :
  registered p (manager w) = true ->
  has_keys ["roll_number"; "regulation_year"; "program_name"] student = true ->
  has_keys ["institute_code"; "name"; "district"] institute = true ->
  exists cgpa_data name events,
    cgpa_lookup env (search_order (manager w)) roll w
    = (Ok cgpa_data, after name events w)
    /\ forallb is_cgpa_query events = true
    /\ found_branch env (store_result student (Some institute) p) roll w
       = (Ok (jsonify
                (success_document
                   (dict_get student "roll_number" PNone)
                   (dict_get student "regulation_year" PNone)
                   (dict_get student "program_name" PNone)
                   (dict_get institute "institute_code" PNone)
                   (dict_get institute "name" PNone)
                   (dict_get institute "district" PNone)
                   match gpa_records env p roll with
                   | Ok rows => map semester_result rows
                   | Raise _ => []
                   end
                   (PList cgpa_data))),
          after p (events ++ [GpaQuery p roll]) w).
Proof.
  intros Hreg Hsk Hik.
  destruct (cgpa_lookup_total env roll (search_order (manager w)) w)
    as (cgpa_data & name & events & Hloop & Hev).
  exists cgpa_data, name, events. split; [exact Hloop |]. split; [exact Hev |].
  unfold found_branch, get_cgpa_data. simpl eq_str. cbv iota.
  unfold bind at 1. unfold bind at 1. unfold get_search_order at 1.
  unfold bind at 1. rewrite Hloop.
  unfold bind at 1. unfold switch_project at 1.
  change (dict_get (store_result student (Some institute) p) "project_name"
                   (PStr "primary")) with (PStr p).
  cbv beta iota.
  change (registered p (manager (after name events w)))
    with (registered p (manager w)).
  rewrite Hreg. unfold ret at 1. rewrite set_current_after.
  set (result' := match cgpa_data with
                  | [] => store_result student (Some institute) p
                  | _ :: _ => dict_set (store_result student (Some institute) p)
                                       "cgpaData" (PList cgpa_data)
                  end).
  assert (Hsource : dict_get result' "source" (PStr "") = PStr "supabase")
    by (subst result'; now destruct cgpa_data).
  assert (Hproject : dict_get result' "project_name" (PStr "primary") = PStr p)
    by (subst result'; now destruct cgpa_data).
  assert (Hcgpa : dict_get result' "cgpaData" (PList []) = PList cgpa_data)
    by (subst result'; now destruct cgpa_data).
  assert (Hdoc := transformed_data_rows result' student institute).
  rewrite Hcgpa in Hdoc.
  assert (Hs : lookup "student_data" result' = Some (PDict student))
    by (subst result'; now destruct cgpa_data).
  assert (Hi : lookup "institute_data" result' = Some (PDict institute))
    by (subst result'; now destruct cgpa_data).
  specialize (Hdoc Hs Hi Hsk Hik).
  unfold bind at 1. unfold get_gpa_records. rewrite Hsource.
  unfold bind at 1. unfold lift at 1. simpl py_startswith. cbv iota.
  rewrite fetch_gpa_records_run, Hproject. cbv beta iota.
  change (registered p (manager (after p events w)))
    with (registered p (manager w)).
  rewrite Hreg, after_after.
  unfold bind, lift, ret. rewrite Hdoc.
  destruct (gpa_records env p roll) as [rows | e].
  - rewrite get_result_data_rows. reflexivity.
  - reflexivity.
Qed.

End HandlerFacts.

(** ** The handler as a whole *)

Section HandlerRuns.
Context {R : PyRuntime}.
Variable env : Env.

Lemma gpa_queries_app (j1 j2 : list Event) :
  gpa_queries (j1 ++ j2) = (gpa_queries j1 ++ gpa_queries j2)%list.
Proof. apply flat_map_app. Qed.

Lemma cgpa_queries_app (j1 j2 : list Event) :
  cgpa_queries (j1 ++ j2) = (cgpa_queries j1 ++ cgpa_queries j2)%list.
Proof. apply flat_map_app. Qed.

Lemma web_searches_app (j1 j2 : list Event) :
  web_searches (j1 ++ j2) = (web_searches j1 ++ web_searches j2)%list.
Proof. apply flat_map_app. Qed.

Lemma truthy_get_nonempty (d : dict) (k : string) :
  truthy (dict_get d k PNone) = true -> truthy (PDict d) = true.
Proof. now destruct d. Qed.

(** A request with the three fields reaches the search. *)
Lemma search_result_body_valid (data : dict) (w : World) :
  SUPABASE_AVAILABLE env = true ->
  request_json env = Ok (PDict data) ->
  truthy (dict_get data "rollNo" PNone) = true ->
  truthy (dict_get data "regulation" PNone) = true ->
  truthy (dict_get data "program" PNone) = true ->
  search_result_body env w =
  search_and_respond env (dict_get data "rollNo" PNone)
                     (dict_get data "regulation" PNone)
                     (dict_get data "program" PNone) w.
Proof.
  intros Havail Hreq Hroll Hreg Hprog.
  unfold search_result_body. rewrite Havail, Hreq. simpl negb. cbv iota.
  unfold bind at 1. unfold lift at 1.
  rewrite (truthy_get_nonempty _ _ Hroll). simpl negb. cbv iota.
  unfold bind, lift, py_get. rewrite Hroll, Hreg, Hprog. reflexivity.
Qed.

(** The fallback branch: one call of the adapter, then one of four
    responses. *)
Lemma fallback_branch_run (roll regulation program : pyval) (w : World) :
  fallback_branch env roll regulation program w =
  (match web_apis env roll regulation program with
   | Raise e => Raise e
   | Ok web_result =>
       if truthy web_result then
         match web_result with
         | PDict d =>
             if truthy (dict_get d "success" PNone)
             then Ok (jsonify web_result)
             else Ok (mk_response
                        (miss_document roll regulation program
                                       (search_order (manager w))) 404)
         | _ => Raise (AttributeError web_result "get")
         end
       else Ok (mk_response
                  (miss_document roll regulation program
                                 (search_order (manager w))) 404)
   end,
   after (current_project (manager w)) [WebSearch roll regulation program] w).
Proof.
  unfold fallback_branch, search_student_in_web_apis, bind, log, lift, ret,
    get_search_order, after.
  destruct w as [[ps cur order] j]. simpl.
  destruct (web_apis env roll regulation program) as [web_result | e];
    [| reflexivity].
  destruct (truthy web_result) eqn:Etruthy; [| reflexivity].
  destruct web_result; try reflexivity.
  simpl. now destruct (truthy (dict_get d "success" PNone)).
Qed.

(** After a miss in every source the fallback branch runs, with the source
    that was active before still active. *)
Lemma search_and_respond_miss (roll regulation program : pyval) (w : World) :
  forallb (source_misses env (manager w) roll regulation program)
          (search_order (manager w)) = true ->
  exists events,
    search_and_respond env roll regulation program w
    = fallback_branch env roll regulation program
        (after (current_project (manager w)) events w)
    /\ forallb is_source_query events = true.
Proof.
  intros Hmiss.
  destruct (resolver_miss env roll regulation program w Hmiss)
    as (events & Hrun & _ & Hev).
  exists events. split; [| exact Hev].
  unfold search_and_respond. unfold bind at 1. rewrite Hrun. reflexivity.
Qed.

(** After a hit in [p] the found branch runs on the result of that source,
    with the source that was active before still active. *)
Lemma search_and_respond_hit (roll regulation program : pyval)
    (pre post : list string) (p : string) (student institute : dict)
    (w : World) :
  search_order (manager w) = (pre ++ p :: post)%list ->
  forallb (source_misses env (manager w) roll regulation program) pre = true ->
  registered p (manager w) = true ->
  students env p roll regulation program = Ok (Some student) ->
  institutes env p (dict_get student "institute_code" PNone)
  = Ok (Some institute) ->
  has_keys ["roll_number"; "regulation_year"; "program_name"] student = true ->
  exists events,
    search_and_respond env roll regulation program w
    = found_branch env (store_result student (Some institute) p) roll
        (after (current_project (manager w)) events w)
    /\ student_queries events
       = (filter (fun q => registered q (manager w)) pre ++ [p])%list
    /\ forallb is_source_query events = true.
Proof.
  intros Horder Hmiss Hreg Hstudent Hinst Hkeys.
  destruct (resolver_hit env roll regulation program pre post p student
              (Some institute) w Horder Hmiss Hreg Hstudent Hinst)
    as (events & Hrun & Hqs & Hev).
  exists events. split; [| now split].
  unfold search_and_respond. unfold bind at 1. rewrite Hrun.
  destruct student as [| column columns]; [discriminate |].
  reflexivity.
Qed.

(** The handler on a request whose student is first found in [p]. *)
Lemma search_result_store_hit (data : dict)
    (pre post : list string) (p : string) (student institute : dict)
    (w : World) :
  let roll := dict_get data "rollNo" PNone in
  let regulation := dict_get data "regulation" PNone in
  let program := dict_get data "program" PNone in
  SUPABASE_AVAILABLE env = true ->
  request_json env = Ok (PDict data) ->
  truthy roll = true -> truthy regulation = true -> truthy program = true ->
  search_order (manager w) = (pre ++ p :: post)%list ->
  forallb (source_misses env (manager w) roll regulation program) pre = true ->
  registered p (manager w) = true ->
  students env p roll regulation program = Ok (Some student) ->
  institutes env p (dict_get student "institute_code" PNone)
  = Ok (Some institute) ->
  has_keys ["roll_number"; "regulation_year"; "program_name"] student = true ->
  has_keys ["institute_code"; "name"; "district"] institute = true ->
  exists cgpa_data events,
    search_result env w
    = (Ok (jsonify
             (success_document
                (dict_get student "roll_number" PNone)
                (dict_get student "regulation_year" PNone)
                (dict_get student "program_name" PNone)
                (dict_get institute "institute_code" PNone)
                (dict_get institute "name" PNone)
                (dict_get institute "district" PNone)
                match gpa_records env p roll with
                | Ok rows => map semester_result rows
                | Raise _ => []
                end
                (PList cgpa_data))),
       after p events w)
    /\ student_queries events
       = (filter (fun q => registered q (manager w)) pre ++ [p])%list
    /\ gpa_queries events = [p]
    /\ web_searches events = [].
Proof.
  intros roll regulation program Havail Hreq Hroll Hregu Hprog Horder Hmiss
    Hreg Hstudent Hinst Hsk Hik.
  destruct (search_and_respond_hit roll regulation program pre post p student
              institute w Horder Hmiss Hreg Hstudent Hinst Hsk)
    as (ev1 & Hrespond & Hqs & Hev1).
  destruct (found_branch_store env student institute p roll
              (after (current_project (manager w)) ev1 w) Hreg Hsk Hik)
    as (cgpa_data & name & ev2 & _ & Hev2 & Hfound).
  exists cgpa_data, (ev1 ++ ev2 ++ [GpaQuery p roll])%list.
  destruct (source_queries_only _ Hev1) as (_ & Hg1 & Hw1).
  destruct (cgpa_queries_only _ Hev2) as (Hs2 & Hg2 & Hw2).
  split; [| split; [| split]].
  - unfold search_result, try_except.
    rewrite (search_result_body_valid data w Havail Hreq Hroll Hregu Hprog).
    fold roll regulation program. rewrite Hrespond, Hfound, after_after.
    reflexivity.
  - rewrite !student_queries_app, Hqs, Hs2. simpl. now rewrite app_nil_r.
  - rewrite !gpa_queries_app, Hg1, Hg2. reflexivity.
  - rewrite !web_searches_app, Hw1, Hw2. reflexivity.
Qed.

End HandlerRuns.

(** ** The search, the lookups and the fallback *)

Section Claims.
Context {R : PyRuntime}.
Variable env : Env.

Lemma manager_after_current (events : list Event) (w : World) :
  manager (after (current_project (manager w)) events w) = manager w.
Proof. now destruct w as [[ps cur order] j]. Qed.

(** C8.  The resolver asks the sources for the student in the configured
    order and stops at the first one that gives a match: the sources asked
    are the registered ones before the match and then the matching one, in
    that order, and no source after it.  The result names the matching
    source, and the registry is as it was before the call. *)
Theorem resolver_stops_at_first_match
    (roll regulation program : pyval) (pre post : list string) (p : string)
    (student : dict) (institute : option dict) (w : World) :
  search_order (manager w) = (pre ++ p :: post)%list ->
  forallb (source_misses env (manager w) roll regulation program) pre = true ->
  registered p (manager w) = true ->
  students env p roll regulation program = Ok (Some student) ->
  institutes env p (dict_get student "institute_code" PNone) = Ok institute ->
  exists w',
    search_student_across_projects env roll regulation program w
    = (Ok (PDict (store_result student institute p)), w')
    /\ student_queries (journal w')
       = (student_queries (journal w)
          ++ filter (fun q => registered q (manager w)) pre ++ [p])%list
    /\ manager w' = manager w.
Proof.
  intros Horder Hmiss Hreg Hstudent Hinst.
  destruct (resolver_hit env roll regulation program pre post p student
              institute w Horder Hmiss Hreg Hstudent Hinst)
    as (events & Hrun & Hqs & _).
  eexists. split; [exact Hrun |]. split.
  - simpl journal. now rewrite student_queries_app, Hqs.
  - apply manager_after_current.
Qed.

(** C5.  For a result of store provenance, whichever source it names, CGPA
    rows are asked of the sources in the configured order: the registered
    sources before the first one that has rows, then that one, and no
    source after it.  A source whose query raises is passed over, and the
    rows of the first source that has some are the CGPA data. *)
Theorem cgpa_lookup_in_search_order
    (result : dict) (roll : pyval) (found : string)
    (pre post : list string) (p : string) (row : dict) (rows : list dict)
    (w : World) :
  dict_get result "source" PNone = PStr "supabase" ->
  dict_get result "project_name" (PStr "primary") = PStr found ->
  registered found (manager w) = true ->
  search_order (manager w) = (pre ++ p :: post)%list ->
  forallb (no_cgpa env (manager w) roll) pre = true ->
  registered p (manager w) = true ->
  cgpa_records env p roll = Ok (row :: rows) ->
  exists w',
    get_cgpa_data env result roll w = (Ok (map cgpa_entry (row :: rows)), w')
    /\ cgpa_queries (journal w')
       = (cgpa_queries (journal w)
          ++ filter (fun q => registered q (manager w)) pre ++ [p])%list.
Proof.
  intros Hsource Hproject Hfound Horder Hnone Hreg Hrows.
  destruct (cgpa_lookup_hit env roll pre post p row rows w Hnone Hreg Hrows)
    as (events & Hrun & Hqs & _).
  exists (after found events w). split.
  - unfold get_cgpa_data. rewrite Hsource.
    change (eq_str (PStr "supabase") "supabase") with true.
    unfold bind, get_search_order. cbv beta iota. rewrite Horder, Hrun.
    unfold switch_project, ret. rewrite Hproject.
    change (registered found (manager (after p events w)))
      with (registered found (manager w)).
    now rewrite Hfound.
  - simpl journal. now rewrite cgpa_queries_app, Hqs.
Qed.

(** C6.  When the student is found in source [p], GPA rows are asked of [p]
    and of no other source.  If that query raises, the list of results is
    empty and the response is still the success document with status 200;
    otherwise the results are the normalized rows. *)
Theorem gpa_fetched_from_found_source
    (data : dict) (pre post : list string) (p : string)
    (student institute : dict) (w : World) :
  let roll := dict_get data "rollNo" PNone in
  let regulation := dict_get data "regulation" PNone in
  let program := dict_get data "program" PNone in
  SUPABASE_AVAILABLE env = true ->
  request_json env = Ok (PDict data) ->
  truthy roll = true -> truthy regulation = true -> truthy program = true ->
  search_order (manager w) = (pre ++ p :: post)%list ->
  forallb (source_misses env (manager w) roll regulation program) pre = true ->
  registered p (manager w) = true ->
  students env p roll regulation program = Ok (Some student) ->
  institutes env p (dict_get student "institute_code" PNone)
  = Ok (Some institute) ->
  has_keys ["roll_number"; "regulation_year"; "program_name"] student = true ->
  has_keys ["institute_code"; "name"; "district"] institute = true ->
  exists resp w',
    search_result env w = (Ok resp, w')
    /\ gpa_queries (journal w') = (gpa_queries (journal w) ++ [p])%list
    /\ status resp = 200
    /\ field "success" (body resp) = Some (PBool true)
    /\ field "resultData" (body resp)
       = Some (PList match gpa_records env p roll with
                     | Ok rows => map semester_result rows
                     | Raise _ => []
                     end).
Proof.
  intros roll regulation program Havail Hreq Hroll Hregu Hprog Horder Hmiss
    Hreg Hstudent Hinst Hsk Hik.
  destruct (search_result_store_hit env data pre post p student institute w
              Havail Hreq Hroll Hregu Hprog Horder Hmiss Hreg Hstudent Hinst
              Hsk Hik)
    as (cgpa_data & events & Hrun & _ & Hgpa & _).
  do 2 eexists. split; [exact Hrun |].
  split; [| now repeat split].
  simpl journal. now rewrite gpa_queries_app, Hgpa.
Qed.

(** After a store hit in [p] the active source is [p], whatever it was
    before the call. *)
Lemma active_source_after_store_hit
    (data : dict) (pre post : list string) (p : string)
    (student institute : dict) (w : World) :
  let roll := dict_get data "rollNo" PNone in
  let regulation := dict_get data "regulation" PNone in
  let program := dict_get data "program" PNone in
  SUPABASE_AVAILABLE env = true ->
  request_json env = Ok (PDict data) ->
  truthy roll = true -> truthy regulation = true -> truthy program = true ->
  search_order (manager w) = (pre ++ p :: post)%list ->
  forallb (source_misses env (manager w) roll regulation program) pre = true ->
  registered p (manager w) = true ->
  students env p roll regulation program = Ok (Some student) ->
  institutes env p (dict_get student "institute_code" PNone)
  = Ok (Some institute) ->
  has_keys ["roll_number"; "regulation_year"; "program_name"] student = true ->
  has_keys ["institute_code"; "name"; "district"] institute = true ->
  current_project (manager (snd (search_result env w))) = p.
Proof.
  intros roll regulation program Havail Hreq Hroll Hregu Hprog Horder Hmiss
    Hreg Hstudent Hinst Hsk Hik.
  destruct (search_result_store_hit env data pre post p student institute w
              Havail Hreq Hroll Hregu Hprog Horder Hmiss Hreg Hstudent Hinst
              Hsk Hik)
    as (cgpa_data & events & Hrun & _).
  now rewrite Hrun.
Qed.

(** C4, as the code has it.  When no source gives a match, the adapter is
    called once, with the three fields of the request, and the registry is
    left as it was.  If the adapter returns a falsy value or a document
    without a truthy [success], the response is the miss document with
    status 404: [success] false and the configured source names.  If it
    returns a document with a truthy [success], that document is the
    response.  If it raises, or returns a truthy value that is not a
    document, the response is an error document with status 500. *)
Theorem fallback_called_once_on_miss (data : dict) (w : World) :
  let roll := dict_get data "rollNo" PNone in
  let regulation := dict_get data "regulation" PNone in
  let program := dict_get data "program" PNone in
  SUPABASE_AVAILABLE env = true ->
  request_json env = Ok (PDict data) ->
  truthy roll = true -> truthy regulation = true -> truthy program = true ->
  forallb (source_misses env (manager w) roll regulation program)
          (search_order (manager w)) = true ->
  exists resp w',
    search_result env w = (Ok resp, w')
    /\ web_searches (journal w')
       = (web_searches (journal w) ++ [(roll, regulation, program)])%list
    /\ manager w' = manager w
    /\ let miss :=
         mk_response
           (miss_document roll regulation program (search_order (manager w)))
           404 in
       match web_apis env roll regulation program with
       | Raise e => resp = mk_response (error_document (exn_text e)) 500
       | Ok (PDict d) =>
           if truthy (PDict d) && truthy (dict_get d "success" PNone)
           then resp = jsonify (PDict d)
           else resp = miss
       | Ok web_result =>
           if truthy web_result
           then resp = mk_response
                         (error_document
                            (exn_text (AttributeError web_result "get")))
                         500
           else resp = miss
       end.
Proof.
  intros roll regulation program Havail Hreq Hroll Hregu Hprog Hmiss.
  destruct (search_and_respond_miss env roll regulation program w Hmiss)
    as (events & Hrespond & Hev).
  destruct (source_queries_only _ Hev) as (_ & _ & Hweb).
  unfold search_result, try_except.
  rewrite (search_result_body_valid env data w Havail Hreq Hroll Hregu Hprog).
  fold roll regulation program.
  rewrite Hrespond, fallback_branch_run, after_after.
  change (search_order (manager (after (current_project (manager w)) events w)))
    with (search_order (manager w)).
  change (current_project (manager (after (current_project (manager w)) events w)))
    with (current_project (manager w)).
  assert (Hjournal :
    web_searches (journal (after (current_project (manager w))
                                 (events ++ [WebSearch roll regulation program]) w))
    = (web_searches (journal w) ++ [(roll, regulation, program)])%list).
  { simpl journal. now rewrite !web_searches_app, Hweb. }
  destruct (web_apis env roll regulation program) as [web_result | e].
  - destruct (truthy web_result) eqn:Etruthy;
      destruct web_result as [| b | z | f | s | l | d];
      cbv beta iota zeta; rewrite ?Etruthy;
      try (destruct (truthy (dict_get d "success" PNone)) eqn:Esuccess);
      do 2 eexists; (split; [reflexivity |]); (split; [exact Hjournal |]);
      (split; [apply manager_after_current | reflexivity]).
  - do 2 eexists. split; [reflexivity |]. split; [exact Hjournal |].
    split; [apply manager_after_current | reflexivity].
Qed.

End Claims.

(** ** The shapes of the responses *)

Section Shapes.
Context {R : PyRuntime}.
Variable env : Env.

Lemma bind_ok {A B : Type} (m : M A) (k : A -> M B) (w w' : World) (b : B) :
  bind m k w = (Ok b, w') ->
  exists a w1, m w = (Ok a, w1) /\ k a w1 = (Ok b, w').
Proof.
  unfold bind. destruct (m w) as [[a | e] w1]; intros H.
  - now exists a, w1.
  - discriminate.
Qed.

Lemma lift_ok {A : Type} (o : outcome A) (w w' : World) (a : A) :
  lift o w = (Ok a, w') -> o = Ok a /\ w' = w.
Proof. unfold lift. intros H. now inversion H. Qed.

Lemma transformed_data_shape (result document : dict) (entries : list pyval) :
  transformed_data result = Ok document ->
  is_success_document (PDict (dict_set document "resultData" (PList entries))).
Proof.
  unfold transformed_data, is_success_document, success_document.
  repeat match goal with
         | |- context [py_getitem ?v ?k] => destruct (py_getitem v k)
         end; try discriminate.
  intros H. inversion H. subst document. simpl. now do 8 eexists.
Qed.

Lemma found_branch_shape (result : dict) (roll : pyval) (w w' : World)
    (resp : Response) :
  found_branch env result roll w = (Ok resp, w') -> response_shape resp.
Proof.
  unfold found_branch. intros H.
  apply bind_ok in H as (cgpa_data & w1 & _ & H).
  apply bind_ok in H as (gpa & w2 & _ & H).
  apply bind_ok in H as (document & w3 & Hdoc & H).
  apply lift_ok in Hdoc as [Hdoc _].
  apply bind_ok in H as (entries & w4 & _ & H).
  unfold ret in H. inversion H. left. split; [reflexivity |].
  simpl body. eapply transformed_data_shape, Hdoc.
Qed.

Lemma fallback_branch_shape (roll regulation program : pyval) (w w' : World)
    (resp : Response) :
  fallback_branch env roll regulation program w = (Ok resp, w') ->
  response_shape resp.
Proof.
  rewrite fallback_branch_run. intros H. inversion H as [[Hresp Hw]].
  clear H Hw.
  destruct (web_apis env roll regulation program) as [web_result | e];
    [| discriminate].
  assert (Hmiss : response_shape
                    (mk_response
                       (miss_document roll regulation program
                                      (search_order (manager w))) 404)).
  { right. right. left. split; [reflexivity |]. simpl. now do 4 eexists. }
  destruct (truthy web_result) eqn:Etruthy.
  - destruct web_result; try discriminate.
    destruct (truthy (dict_get d "success" PNone)) eqn:Esuccess;
      inversion Hresp; [| exact Hmiss].
    right. left. split; [reflexivity |]. simpl. now exists d.
  - inversion Hresp. exact Hmiss.
Qed.

Lemma search_and_respond_shape (roll regulation program : pyval)
    (w w' : World) (resp : Response) :
  search_and_respond env roll regulation program w = (Ok resp, w') ->
  response_shape resp.
Proof.
  unfold search_and_respond. intros H.
  apply bind_ok in H as (result & w1 & _ & H).
  apply bind_ok in H as (student & w2 & _ & H).
  destruct (truthy student).
  - destruct result; try discriminate.
    eapply found_branch_shape, H.
  - eapply fallback_branch_shape, H.
Qed.

Lemma error_response_shape (text : string) (code : nat) :
  code = 400 \/ code = 500 ->
  response_shape (mk_response (error_document text) code).
Proof.
  intros Hcode. right. right. right. split; [exact Hcode |]. now exists text.
Qed.

Lemma search_result_body_shape (w w' : World) (resp : Response) :
  search_result_body env w = (Ok resp, w') -> response_shape resp.
Proof.
  unfold search_result_body.
  destruct (negb (SUPABASE_AVAILABLE env)).
  { intros H. inversion H. apply error_response_shape. now right. }
  intros H. apply bind_ok in H as (data & w1 & _ & H).
  destruct (negb (truthy data)).
  { inversion H. apply error_response_shape. now left. }
  apply bind_ok in H as (roll & w2 & _ & H).
  apply bind_ok in H as (regulation & w3 & _ & H).
  apply bind_ok in H as (program & w4 & _ & H).
  destruct (negb (truthy roll && truthy regulation && truthy program)).
  { inversion H. apply error_response_shape. now left. }
  eapply search_and_respond_shape, H.
Qed.

(** C7, as the code has it.  The handler always answers: no exception
    leaves it.  The answer is the success document or the document of the
    adapter with status 200, the miss document with status 404, or a
    document that only carries an error text, with status 400 or 500; an
    exception raised inside is answered by such a document with status 500
    and the text of the exception. *)
Theorem search_result_always_responds (w : World) :
  exists resp w',
    search_result env w = (Ok resp, w')
    /\ response_shape resp
    /\ (forall e w1, search_result_body env w = (Raise e, w1) ->
          resp = mk_response (error_document (exn_text e)) 500 /\ w' = w1).
Proof.
  unfold search_result, try_except.
  destruct (search_result_body env w) as [[resp | e] w1] eqn:Hbody.
  - exists resp, w1. split; [reflexivity |]. split.
    + eapply search_result_body_shape, Hbody.
    + intros e w2 H. discriminate.
  - do 2 eexists. split; [reflexivity |]. split.
    + apply error_response_shape. now right.
    + intros e' w2 H. now inversion H.
Qed.

End Shapes.

(** * The properties on the sample deployment *)

Section OnSamples.
#[local] Existing Instance sample_runtime.

(** C1, at a request the code can receive.  With [primary] active and the
    student first found in [secondary], the handler answers with status 200
    and leaves [secondary] active.  The search itself restores [primary];
    it is the switches of the found branch (api.py lines 203 and 220) that
    leave the other source active. *)
Theorem store_hit_leaves_found_source_active :
  current_project (manager sample_world) = "primary"
  /\ current_project
       (manager (snd (search_student_across_projects
                        sample_env sample_roll sample_regulation
                        sample_program sample_world)))
     = "primary"
  /\ (exists resp,
        fst (search_result sample_env sample_world) = Ok resp
        /\ status resp = 200
        /\ field "success" (body resp) = Some (PBool true))
  /\ current_project (manager (snd (search_result sample_env sample_world)))
     = "secondary".
Proof.
  split; [reflexivity |]. split; [reflexivity |]. split; [| reflexivity].
  eexists. split; [reflexivity |]. split; reflexivity.
Qed.

(** C2: the empty string is not valid JSON, and it is not wrapped: the
    decoder gives the empty list for it. *)
Lemma empty_string_is_not_wrapped :
  json_loads "" = None
  /\ decode_ref_subjects (PStr "") = PList []
  /\ decode_ref_subjects (PStr "") <> PList [PStr ""].
Proof.
  split; [reflexivity |]. split; [reflexivity |]. discriminate.
Qed.

(** C3 on the two rows of the specification. *)
Lemma semester_result_gpa_and_passed_witness :
  (let entry := semester_result [("gpa", PNone); ("is_reference", PBool true)] in
   field "gpa" entry = Some (PStr "ref")
   /\ field "passed" entry = Some (PBool false))
  /\ (let entry :=
        semester_result [("gpa", PStr "3.50"); ("is_reference", PBool false)] in
      field "gpa" entry = Some (PStr "3.50")
      /\ field "passed" entry = Some (PBool true)).
Proof.
  split.
  - destruct (semester_result_gpa_and_passed
                [("gpa", PNone); ("is_reference", PBool true)] PNone true
                eq_refl eq_refl) as (Hgpa & _ & Hpassed).
    split; [exact Hgpa | exact Hpassed].
  - destruct (semester_result_gpa_and_passed
                [("gpa", PStr "3.50"); ("is_reference", PBool false)]
                (PStr "3.50") false eq_refl eq_refl) as (Hgpa & _ & Hpassed).
    split; [exact Hgpa | exact Hpassed].
Defined.

(** C4: with the adapter raising, the response is an error document with
    status 500; it has no [success] field and no list of sources. *)
Lemma adapter_failure_is_not_a_miss :
  let env := sample_env_miss (Raise timeout_error) in
  forallb (source_misses env (manager sample_world) sample_roll
                         sample_regulation sample_program)
          (search_order (manager sample_world)) = true
  /\ web_apis env sample_roll sample_regulation sample_program
     = Raise timeout_error
  /\ fst (search_result env sample_world)
     = Ok (mk_response (error_document "timed out") 500)
  /\ field "success" (error_document "timed out") = None
  /\ field "projects_searched" (error_document "timed out") = None.
Proof. repeat split. Qed.

(** C4 on a deployment where no source holds the student and the adapter
    returns nothing. *)
Lemma fallback_called_once_on_miss_witness :
  exists resp w',
    search_result (sample_env_miss (Ok PNone)) sample_world = (Ok resp, w')
    /\ web_searches (journal w')
       = [(sample_roll, sample_regulation, sample_program)]
    /\ manager w' = manager sample_world
    /\ resp = mk_response
                (miss_document sample_roll sample_regulation sample_program
                               ["primary"; "secondary"; "archive"]) 404.
Proof.
  destruct (fallback_called_once_on_miss (sample_env_miss (Ok PNone))
              sample_request sample_world
              eq_refl eq_refl eq_refl eq_refl eq_refl eq_refl)
    as (resp & w' & Hrun & Hweb & Hmanager & Hresp).
  exists resp, w'. split; [exact Hrun |]. split; [exact Hweb |].
  split; [exact Hmanager | exact Hresp].
Defined.

(** C5 on the sample deployment: the student is in [secondary], the CGPA
    rows come from [archive], after [primary] failed and [secondary] had
    none. *)
Lemma cgpa_lookup_in_search_order_witness :
  exists w',
    get_cgpa_data sample_env
      (store_result sample_student (Some sample_institute) "secondary")
      sample_roll sample_world
    = (Ok [cgpa_entry sample_cgpa_row], w')
    /\ cgpa_queries (journal w') = ["primary"; "secondary"; "archive"].
Proof.
  destruct (cgpa_lookup_in_search_order sample_env
              (store_result sample_student (Some sample_institute) "secondary")
              sample_roll "secondary" ["primary"; "secondary"] [] "archive"
              sample_cgpa_row [] sample_world
              eq_refl eq_refl eq_refl eq_refl eq_refl eq_refl eq_refl)
    as (w' & Hrun & Hqueries).
  exists w'. split; [exact Hrun | exact Hqueries].
Defined.

(** C6 on the sample deployment with the GPA query failing. *)
Lemma gpa_fetched_from_found_source_witness :
  exists resp w',
    search_result sample_env_gpa_down sample_world = (Ok resp, w')
    /\ gpa_queries (journal w') = ["secondary"]
    /\ status resp = 200
    /\ field "success" (body resp) = Some (PBool true)
    /\ field "resultData" (body resp) = Some (PList []).
Proof.
  destruct (gpa_fetched_from_found_source sample_env_gpa_down sample_request
              ["primary"] ["archive"] "secondary" sample_student
              sample_institute sample_world
              eq_refl eq_refl eq_refl eq_refl eq_refl eq_refl eq_refl eq_refl
              eq_refl eq_refl eq_refl eq_refl)
    as (resp & w' & Hrun & Hqueries & Hstatus & Hsuccess & Hresults).
  exists resp, w'. split; [exact Hrun |]. split; [exact Hqueries |].
  split; [exact Hstatus |]. split; [exact Hsuccess | exact Hresults].
Defined.

(** C7: a request without its third field, and a request whose body is a
    list, are answered by error documents with status 400 and 500; such a
    document is neither the success nor the miss document. *)
Lemma error_documents_are_not_section_6_shapes :
  fst (search_result
         (sample_env_with
            (Ok (PDict [("rollNo", sample_roll);
                        ("regulation", sample_regulation)]))
            (Ok []) (Ok PNone))
         sample_world)
  = Ok (mk_response
          (error_document "Missing required fields: rollNo, regulation, program")
          400)
  /\ fst (search_result
            (sample_env_with (Ok (PList [PInt 1])) (Ok []) (Ok PNone))
            sample_world)
     = Ok (mk_response
             (error_document "'list' object has no attribute 'get'") 500)
  /\ (forall text, ~ is_success_document (error_document text))
  /\ (forall text, ~ is_miss_document (error_document text)).
Proof.
  split; [reflexivity |]. split; [reflexivity |]. split.
  - intros text (roll & regulation & exam & code & name & district & results
                 & cgpa & H). discriminate H.
  - intros text (roll & regulation & exam & order & H). discriminate H.
Qed.

(** C8 on the sample deployment: [primary] has no such student,
    [secondary] has; [archive], which has the student too, is not asked. *)
Lemma resolver_stops_at_first_match_witness :
  exists w',
    search_student_across_projects sample_env sample_roll sample_regulation
                                   sample_program sample_world
    = (Ok (PDict (store_result sample_student (Some sample_institute)
                               "secondary")), w')
    /\ student_queries (journal w') = ["primary"; "secondary"]
    /\ manager w' = manager sample_world.
Proof.
  destruct (resolver_stops_at_first_match sample_env sample_roll
              sample_regulation sample_program ["primary"] ["archive"]
              "secondary" sample_student (Some sample_institute) sample_world
              eq_refl eq_refl eq_refl eq_refl eq_refl)
    as (w' & Hrun & Hqueries & Hmanager).
  exists w'. split; [exact Hrun |]. split; [exact Hqueries | exact Hmanager].
Defined.

(** C9: a row whose [created_at] is null gives an entry whose [publishedAt]
    is null, for GPA and CGPA entries alike, and so does the success
    response made from such a row. *)
Lemma publishedAt_null_for_null_created_at :
  field "publishedAt"
        (semester_result [("semester", PInt 1); ("gpa", PStr "3.50");
                          ("created_at", PNone)])
  = Some PNone
  /\ field "publishedAt"
           (cgpa_entry [("cgpa", PStr "3.42"); ("created_at", PNone)])
     = Some PNone
  /\ published_stamps (fst (search_result sample_env_null_stamp sample_world))
     = Some [Some PNone].
Proof. repeat split. Qed.

(** C10 on a row without a [gpa] column. *)
Lemma gpa_absent_is_null_witness :
  let row := [("semester", PInt 3); ("is_reference", PBool true)] in
  lookup "gpa" row = None
  /\ semester_result row = semester_result (dict_set row "gpa" PNone)
  /\ field "gpa" (semester_result row) = Some (PStr "ref").
Proof.
  destruct (gpa_absent_is_null
              [("semester", PInt 3); ("is_reference", PBool true)] eq_refl)
    as (Hsame & Hgpa & _).
  split; [reflexivity |]. split; [exact Hsame | exact Hgpa].
Defined.

End OnSamples.

(** * Further properties of [api.py] *)

(** ** Requests that never reach the sources *)

Section Rejections.
Context {R : PyRuntime}.
Variable env : Env.

(** X1.  A request whose body is not an object with the three fields is
    answered by an error document and nothing else happens: no source is
    asked, the adapter is not called and the active source stays.  The
    status is 400 for an empty body and for an object with a missing or
    empty field, and 500 when the body cannot be read or is a non-empty
    value that is not an object. *)
Theorem incomplete_request_is_rejected (w : World) :
  SUPABASE_AVAILABLE env = true ->
  request_is_complete env = false ->
  exists text,
    search_result env w
    = (Ok (mk_response (error_document text)
             match request_json env with
             | Ok (PDict _) => 400
             | Ok data => if truthy data then 500 else 400
             | Raise _ => 500
             end), w).
Proof.
  intros Havail Hreq.
  unfold search_result, try_except, search_result_body.
  rewrite Havail. simpl negb. cbv iota.
  unfold request_is_complete in Hreq.
  unfold bind at 1. unfold lift at 1.
  destruct (request_json env) as [data | e]; [| now eexists].
  destruct data as [| b | z | f | s | l | d];
    try (destruct (truthy _) eqn:Etruthy; now eexists).
  destruct d as [| field fields]; [now eexists |].
  change (truthy (PDict (field :: fields))) with true.
  simpl negb. cbv iota.
  unfold bind, lift, py_get. rewrite Hreq. now eexists.
Qed.

End Rejections.

(** ** The normalizer on missing and null columns *)

Section NormalizerEdges.
Context {R : PyRuntime}.

(** X2.  In a CGPA entry a missing [cgpa] reads "0.00" but a null one
    reads "None": unlike the GPA of a semester, a null CGPA is not given a
    sentinel.  The semester of a CGPA entry is the stored value as it is,
    "Final" when missing, while the semester of a GPA entry is always a
    string, "1" when missing; and a row without [is_reference], or with a
    null one, counts as passed. *)
Theorem null_and_missing_columns (row : dict) :
  field "cgpa" (cgpa_entry row)
  = Some (PStr match lookup "cgpa" row with
               | None => "0.00"
               | Some PNone => "None"
               | Some v => py_str v
               end)
  /\ field "semester" (cgpa_entry row)
     = Some match lookup "semester" row with
            | None => PStr "Final"
            | Some v => v
            end
  /\ field "semester" (semester_result row)
     = Some (PStr match lookup "semester" row with
                  | None => "1"
                  | Some PNone => "None"
                  | Some v => py_str v
                  end)
  /\ field "passed" (semester_result row)
     = Some (PBool match lookup "is_reference" row with
                   | None | Some PNone => true
                   | Some v => negb (truthy v)
                   end).
Proof.
  unfold cgpa_entry, semester_result, dict_get, field.
  split; [| split; [| split]].
  - now destruct (lookup "cgpa" row) as [[] |].
  - now destruct (lookup "semester" row).
  - now destruct (lookup "semester" row) as [[] |].
  - now destruct (lookup "is_reference" row) as [[] |].
Qed.

Lemma normalize_stops_at_bad_item (good : list dict) (bad : pyval)
    (rest : list pyval) :
  is_dict bad = false ->
  normalize_gpa_records (map PDict good ++ bad :: rest)%list
  = Raise (AttributeError bad "get").
Proof.
  intros Hbad. induction good as [| row rows IH]; simpl.
  - now destruct bad.
  - now rewrite IH.
Qed.

End NormalizerEdges.

(** ** Results that did not come from a store *)

Section WebProvenance.
Context {R : PyRuntime}.
Variable env : Env.

Lemma web_source_is_not_supabase (source : string) :
  String.prefix "web_api" source = true -> (source =? "supabase") = false.
Proof.
  intros Hprefix. destruct (String.eqb_spec source "supabase") as [-> |];
    [discriminate | reflexivity].
Qed.

(** The found branch on a result of the adapter's channel, up to the loop
    over the records: nothing is asked and nothing is switched. *)
Lemma found_branch_web (result student institute : dict) (source : string)
    (records : list pyval) (roll : pyval) (w : World) :
  lookup "source" result = Some (PStr source) ->
  String.prefix "web_api" source = true ->
  lookup "gpa_records" result = Some (PList records) ->
  lookup "student_data" result = Some (PDict student) ->
  lookup "institute_data" result = Some (PDict institute) ->
  has_keys ["roll_number"; "regulation_year"; "program_name"] student = true ->
  has_keys ["institute_code"; "name"; "district"] institute = true ->
  found_branch env result roll w
  = (match get_result_data (PList records) with
     | Ok entries =>
         Ok (jsonify
               (success_document
                  (dict_get student "roll_number" PNone)
                  (dict_get student "regulation_year" PNone)
                  (dict_get student "program_name" PNone)
                  (dict_get institute "institute_code" PNone)
                  (dict_get institute "name" PNone)
                  (dict_get institute "district" PNone)
                  entries
                  (dict_get result "cgpaData" (PList []))))
     | Raise e => Raise e
     end, w).
Proof.
  intros Hsource Hprefix Hrecords Hs Hi Hsk Hik.
  unfold found_branch, get_cgpa_data, get_gpa_records, dict_get.
  rewrite Hsource. unfold eq_str.
  rewrite (web_source_is_not_supabase source Hprefix).
  unfold bind, ret, lift, py_startswith.
  rewrite Hsource, Hprefix, Hrecords. simpl py_len. cbv beta iota.
  rewrite (transformed_data_rows result student institute Hs Hi Hsk Hik).
  now destruct (get_result_data (PList records)).
Qed.

(** X3.  A result whose source starts with [web_api] is answered from the
    records it carries: no source is asked for CGPA or GPA rows and the
    active source is not switched.  Its records go through the same
    normalization as stored rows, one entry per record in their order, and
    the CGPA data is what the result already holds. *)
Theorem web_result_is_normalized_without_queries
    (result student institute : dict) (source : string) (rows : list dict)
    (roll : pyval) (w : World) :
  lookup "source" result = Some (PStr source) ->
  String.prefix "web_api" source = true ->
  lookup "gpa_records" result = Some (PList (map PDict rows)) ->
  lookup "student_data" result = Some (PDict student) ->
  lookup "institute_data" result = Some (PDict institute) ->
  has_keys ["roll_number"; "regulation_year"; "program_name"] student = true ->
  has_keys ["institute_code"; "name"; "district"] institute = true ->
  found_branch env result roll w
  = (Ok (jsonify
           (success_document
              (dict_get student "roll_number" PNone)
              (dict_get student "regulation_year" PNone)
              (dict_get student "program_name" PNone)
              (dict_get institute "institute_code" PNone)
              (dict_get institute "name" PNone)
              (dict_get institute "district" PNone)
              (map semester_result rows)
              (dict_get result "cgpaData" (PList [])))), w).
Proof.
  intros Hsource Hprefix Hrecords Hs Hi Hsk Hik.
  rewrite (found_branch_web result student institute source _ roll w
             Hsource Hprefix Hrecords Hs Hi Hsk Hik).
  now rewrite get_result_data_rows.
Qed.

(** X4.  One record that is not an object fails the whole answer: the
    found branch raises the attribute error of that record, and the entries
    made from the records before it are not returned. *)
Theorem malformed_record_fails_the_answer
    (result student institute : dict) (source : string) (good : list dict)
    (bad : pyval) (rest : list pyval) (roll : pyval) (w : World) :
  lookup "source" result = Some (PStr source) ->
  String.prefix "web_api" source = true ->
  lookup "gpa_records" result
  = Some (PList (map PDict good ++ bad :: rest)%list) ->
  is_dict bad = false ->
  lookup "student_data" result = Some (PDict student) ->
  lookup "institute_data" result = Some (PDict institute) ->
  has_keys ["roll_number"; "regulation_year"; "program_name"] student = true ->
  has_keys ["institute_code"; "name"; "district"] institute = true ->
  found_branch env result roll w = (Raise (AttributeError bad "get"), w).
Proof.
  intros Hsource Hprefix Hrecords Hbad Hs Hi Hsk Hik.
  rewrite (found_branch_web result student institute source _ roll w
             Hsource Hprefix Hrecords Hs Hi Hsk Hik).
  unfold get_result_data, py_iter.
  assert (Htruthy : truthy (PList (map PDict good ++ bad :: rest)%list) = true)
    by now destruct good.
  rewrite Htruthy. now rewrite normalize_stops_at_bad_item.
Qed.

(** X5.  A result without [project_name] is taken to come from the source
    named [primary]: the GPA rows are asked there, and if no source is
    registered under that name nothing is asked and the list is empty. *)
Theorem gpa_fetch_defaults_to_primary (result : dict) (roll : pyval)
    (w : World) :
  lookup "project_name" result = None ->
  fetch_gpa_records env result roll w
  = if registered "primary" (manager w) then
      (Ok match gpa_records env "primary" roll with
          | Ok rows => PList (map PDict rows)
          | Raise _ => PList []
          end,
       after "primary" [GpaQuery "primary" roll] w)
    else (Ok (PList []), w).
Proof.
  intros Habsent. rewrite fetch_gpa_records_run.
  unfold dict_get. now rewrite Habsent.
Qed.

End WebProvenance.

(** ** What a lookup can do to the world *)

Section Frames.
Context {R : PyRuntime}.
Variable env : Env.

Lemma reachable_refl (w : World) : reachable w w [].
Proof.
  exists (current_project (manager w)). split; [| now left].
  symmetry. apply after_same.
Qed.

Lemma reachable_current (events : list Event) (w : World) :
  reachable w (after (current_project (manager w)) events w) events.
Proof. exists (current_project (manager w)). split; [reflexivity | now left]. Qed.

Lemma reachable_registered (name : string) (events : list Event) (w : World) :
  registered name (manager w) = true ->
  reachable w (after name events w) events.
Proof. intros H. exists name. split; [reflexivity | now right]. Qed.

Lemma reachable_step (w w1 w2 : World) (e1 e2 : list Event) :
  reachable w w1 e1 -> reachable w1 w2 e2 -> reachable w w2 (e1 ++ e2)%list.
Proof.
  intros (n1 & -> & H1) (n2 & -> & H2). exists n2.
  split; [apply after_after |].
  destruct H2 as [-> | H2]; [exact H1 | now right].
Qed.

Lemma reachable_registry (w w' : World) (events : list Event) :
  reachable w w' events ->
  projects (manager w') = projects (manager w)
  /\ search_order (manager w') = search_order (manager w)
  /\ journal w' = (journal w ++ events)%list
  /\ (current_project (manager w') = current_project (manager w)
      \/ registered (current_project (manager w')) (manager w') = true).
Proof.
  intros (name & -> & Hname). repeat split.
  destruct Hname as [-> | Hname]; [now left | now right].
Qed.

Lemma switch_project_world (name : pyval) (w : World) :
  exists o w', switch_project name w = (o, w') /\ reachable w w' [].
Proof.
  unfold switch_project. destruct name; try (do 2 eexists; split;
    [reflexivity | apply reachable_refl]).
  destruct (registered s (manager w)) eqn:Ereg.
  - do 2 eexists. split; [reflexivity |].
    exists s. split; [| now right].
    unfold set_current, after. now rewrite app_nil_r.
  - do 2 eexists. split; [reflexivity | apply reachable_refl].
Qed.

(** The search in the sources never raises and only sends source
    queries. *)
Lemma search_sources_world (roll regulation program : pyval)
    (names : list string) :
  forall w : World,
  exists o name events,
    search_sources env names roll regulation program w
    = (Ok o, after name events w)
    /\ forallb is_source_query events = true.
Proof.
  induction names as [| q rest IH]; intros w.
  - exists None, (current_project (manager w)), []. now rewrite after_same.
  - simpl search_sources. unfold bind. rewrite try_source_run. cbv zeta.
    destruct (registered q (manager w)); [| cbv beta iota; apply IH].
    destruct (students env q roll regulation program) as [[student |] | e].
    + destruct (institutes env q (dict_get student "institute_code" PNone))
        as [institute | e]; cbv beta iota.
      * now do 3 eexists.
      * destruct (IH (after q [StudentQuery q roll regulation program;
                               InstituteQuery q (dict_get student "institute_code" PNone)] w))
          as (o & name & events & Hrun & Hev).
        rewrite Hrun, after_after. now do 3 eexists.
    + cbv beta iota.
      destruct (IH (after q [StudentQuery q roll regulation program] w))
        as (o & name & events & Hrun & Hev).
      rewrite Hrun, after_after. now do 3 eexists.
    + cbv beta iota.
      destruct (IH (after q [StudentQuery q roll regulation program] w))
        as (o & name & events & Hrun & Hev).
      rewrite Hrun, after_after. now do 3 eexists.
Qed.

Lemma resolver_world (roll regulation program : pyval) (w : World) :
  exists result events,
    search_student_across_projects env roll regulation program w
    = (Ok result, after (current_project (manager w)) events w)
    /\ forallb is_source_query events = true.
Proof.
  unfold search_student_across_projects.
  destruct (search_sources_world roll regulation program
              (search_order (manager w)) w)
    as ([result |] & name & events & Hrun & Hev);
    rewrite Hrun, set_current_after; now do 2 eexists.
Qed.

Lemma cgpa_lookup_world (roll : pyval) (names : list string) :
  forall w : World,
  exists cgpa_data w' events,
    cgpa_lookup env names roll w = (Ok cgpa_data, w')
    /\ reachable w w' events
    /\ forallb is_cgpa_query events = true.
Proof.
  induction names as [| q rest IH]; intros w.
  - exists [], w, []. split; [reflexivity |]. split; [apply reachable_refl |].
    reflexivity.
  - rewrite cgpa_lookup_cons.
    destruct (registered q (manager w)) eqn:Ereg; [| apply IH].
    assert (Hstep : reachable w (after q [CgpaQuery q roll] w)
                              [CgpaQuery q roll])
      by now apply reachable_registered.
    destruct (cgpa_records env q roll) as [[| row rows] | e].
    + destruct (IH (after q [CgpaQuery q roll] w))
        as (data & w' & events & Hrun & Hreach & Hev).
      rewrite Hrun. do 3 eexists. split; [reflexivity |].
      split; [eapply reachable_step; eassumption | exact Hev].
    + do 3 eexists. split; [reflexivity |].
      split; [exact Hstep | reflexivity].
    + destruct (IH (after q [CgpaQuery q roll] w))
        as (data & w' & events & Hrun & Hreach & Hev).
      rewrite Hrun. do 3 eexists. split; [reflexivity |].
      split; [eapply reachable_step; eassumption | exact Hev].
Qed.

Lemma get_cgpa_data_world (result : dict) (roll : pyval) (w : World) :
  exists o w' events,
    get_cgpa_data env result roll w = (o, w')
    /\ reachable w w' events
    /\ forallb is_cgpa_query events = true.
Proof.
  unfold get_cgpa_data.
  destruct (eq_str (dict_get result "source" PNone) "supabase").
  - unfold bind, get_search_order. cbv beta iota.
    destruct (cgpa_lookup_world roll (search_order (manager w)) w)
      as (data & w1 & events & Hrun & Hreach & Hev).
    rewrite Hrun.
    destruct (switch_project_world
                (dict_get result "project_name" (PStr "primary")) w1)
      as (o & w2 & Hswitch & Hreach2).
    rewrite Hswitch.
    assert (Hall : reachable w w2 events).
    { rewrite <- (app_nil_r events). eapply reachable_step; eassumption. }
    destruct o; do 3 eexists; (split; [reflexivity |]);
      (split; [exact Hall | exact Hev]).
  - exists (Ok []), w, []. split; [reflexivity |].
    split; [apply reachable_refl | reflexivity].
Qed.

Lemma get_gpa_records_world (result : dict) (roll : pyval) (w : World) :
  exists o w' events,
    get_gpa_records env result roll w = (o, w')
    /\ reachable w w' events
    /\ (events = [] \/ exists p, events = [GpaQuery p roll]).
Proof.
  unfold get_gpa_records, bind, lift.
  destruct (py_startswith (dict_get result "source" (PStr "")) "web_api")
    as [[|] | e].
  - destruct (py_len (dict_get result "gpa_records" (PList [])));
      do 3 eexists; (split; [reflexivity |]);
      (split; [apply reachable_refl | now left]).
  - rewrite fetch_gpa_records_run.
    destruct (dict_get result "project_name" (PStr "primary"));
      try (do 3 eexists; (split; [reflexivity |]);
           (split; [apply reachable_refl | now left])).
    destruct (registered s (manager w)) eqn:Ereg.
    + do 3 eexists. split; [reflexivity |].
      split; [now apply reachable_registered | right; now eexists].
    + do 3 eexists. split; [reflexivity |].
      split; [apply reachable_refl | now left].
  - do 3 eexists. split; [reflexivity |].
    split; [apply reachable_refl | now left].
Qed.

Lemma found_branch_world (result : dict) (roll : pyval) (w : World) :
  exists o w' events,
    found_branch env result roll w = (o, w')
    /\ reachable w w' events
    /\ student_queries events = []
    /\ web_searches events = []
    /\ length (gpa_queries events) <= 1.
Proof.
  unfold found_branch. unfold bind at 1.
  destruct (get_cgpa_data_world result roll w)
    as (o1 & w1 & ev1 & Hrun1 & Hreach1 & Hev1).
  rewrite Hrun1.
  destruct (cgpa_queries_only _ Hev1) as (Hs1 & Hg1 & Hw1).
  destruct o1 as [cgpa_data | e].
  2:{ exists (Raise e), w1, ev1. rewrite Hg1. simpl.
      split; [reflexivity |]. split; [exact Hreach1 |].
      split; [exact Hs1 |]. split; [exact Hw1 | lia]. }
  unfold bind at 1.
  match goal with
  | |- context [get_gpa_records env ?r roll w1] =>
      destruct (get_gpa_records_world r roll w1)
        as (o2 & w2 & ev2 & Hrun2 & Hreach2 & Hev2); rewrite Hrun2
  end.
  assert (Hreach : reachable w w2 (ev1 ++ ev2))
    by (eapply reachable_step; eassumption).
  assert (Hfacts : student_queries (ev1 ++ ev2) = []
                   /\ web_searches (ev1 ++ ev2) = []
                   /\ length (gpa_queries (ev1 ++ ev2)) <= 1).
  { rewrite student_queries_app, web_searches_app, gpa_queries_app.
    rewrite Hs1, Hw1, Hg1.
    destruct Hev2 as [-> | (p & ->)]; simpl; repeat split; lia. }
  destruct o2 as [gpa | e].
  2:{ exists (Raise e), w2, (ev1 ++ ev2)%list. split; [reflexivity |].
      split; [exact Hreach | exact Hfacts]. }
  unfold bind, lift, ret.
  match goal with
  | |- context [transformed_data ?r] => destruct (transformed_data r)
  end.
  2:{ do 3 eexists. split; [reflexivity |].
      split; [exact Hreach | exact Hfacts]. }
  destruct (get_result_data gpa);
    do 3 eexists; (split; [reflexivity |]);
    (split; [exact Hreach | exact Hfacts]).
Qed.

Lemma budget_nil : within_budget [].
Proof. unfold within_budget. simpl. repeat split; (lia || now left). Qed.

Lemma budget_sources (events : list Event) :
  forallb is_source_query events = true -> within_budget events.
Proof.
  intros H. destruct (source_queries_only _ H) as (Hc & Hg & Hw).
  unfold within_budget. rewrite Hg, Hw. simpl. repeat split; (lia || now left).
Qed.

Lemma search_and_respond_world (roll regulation program : pyval) (w : World) :
  exists o w' events,
    search_and_respond env roll regulation program w = (o, w')
    /\ reachable w w' events
    /\ within_budget events.
Proof.
  unfold search_and_respond. unfold bind at 1.
  destruct (resolver_world roll regulation program w)
    as (result & ev1 & Hrun & Hev1).
  rewrite Hrun.
  set (w1 := after (current_project (manager w)) ev1 w).
  assert (Hreach1 : reachable w w1 ev1) by apply reachable_current.
  destruct (source_queries_only _ Hev1) as (Hc1 & Hg1 & Hw1).
  assert (Hfallback :
    exists o w' events,
      fallback_branch env roll regulation program w1 = (o, w')
      /\ reachable w w' events /\ within_budget events).
  { rewrite fallback_branch_run. do 2 eexists.
    exists (ev1 ++ [WebSearch roll regulation program])%list.
    split; [reflexivity |]. split.
    - eapply reachable_step; [exact Hreach1 | apply reachable_current].
    - unfold within_budget.
      rewrite web_searches_app, gpa_queries_app, cgpa_queries_app.
      rewrite Hw1, Hg1, Hc1. simpl. repeat split; (lia || now right). }
  assert (Hfound : forall d,
    exists o w' events,
      found_branch env d roll w1 = (o, w')
      /\ reachable w w' events /\ within_budget events).
  { intros d.
    destruct (found_branch_world d roll w1)
      as (o & w2 & ev2 & Hrun2 & Hreach2 & _ & Hw2 & Hg2).
    exists o, w2, (ev1 ++ ev2)%list. split; [exact Hrun2 |]. split.
    - eapply reachable_step; eassumption.
    - unfold within_budget. rewrite web_searches_app, gpa_queries_app.
      rewrite Hw1, Hg1, Hw2. simpl. repeat split; (lia || now left). }
  assert (Hraise : forall e,
    exists o w' events,
      (Raise e, w1) = (o : outcome Response, w')
      /\ reachable w w' events /\ within_budget events).
  { intros e. exists (Raise e), w1, ev1. split; [reflexivity |].
    split; [exact Hreach1 | now apply budget_sources]. }
  unfold bind at 1.
  destruct (truthy result) eqn:Etruthy.
  - unfold lift at 1.
    destruct result as [| b | z | f | s | l | d];
      try (apply Hraise).
    simpl py_get. cbv beta iota.
    destruct (truthy (dict_get d "student_data" PNone));
      [apply Hfound | apply Hfallback].
  - unfold ret at 1. rewrite Etruthy. apply Hfallback.
Qed.

Lemma search_result_body_world (w : World) :
  exists o w' events,
    search_result_body env w = (o, w')
    /\ reachable w w' events
    /\ within_budget events.
Proof.
  assert (Hquiet : forall o : outcome Response,
    exists o' w' events,
      (o, w) = (o', w') /\ reachable w w' events /\ within_budget events).
  { intros o. exists o, w, []. split; [reflexivity |].
    split; [apply reachable_refl | apply budget_nil]. }
  unfold search_result_body.
  destruct (negb (SUPABASE_AVAILABLE env)); [apply Hquiet |].
  unfold bind at 1. unfold lift at 1.
  destruct (request_json env) as [data | e]; [| apply Hquiet].
  destruct (negb (truthy data)); [apply Hquiet |].
  unfold bind at 1. unfold lift at 1.
  destruct (py_get data "rollNo" PNone) as [roll | e]; [| apply Hquiet].
  unfold bind at 1. unfold lift at 1.
  destruct (py_get data "regulation" PNone) as [regulation | e];
    [| apply Hquiet].
  unfold bind at 1. unfold lift at 1.
  destruct (py_get data "program" PNone) as [program | e]; [| apply Hquiet].
  destruct (negb (truthy roll && truthy regulation && truthy program));
    [apply Hquiet | apply search_and_respond_world].
Qed.

(** What one run of the handler leaves behind. *)
Lemma search_result_world (w : World) :
  exists resp w' events,
    search_result env w = (Ok resp, w')
    /\ reachable w w' events
    /\ within_budget events.
Proof.
  unfold search_result, try_except.
  destruct (search_result_body_world w)
    as ([resp | e] & w' & events & Hrun & Hreach & Hbudget);
    rewrite Hrun; do 3 eexists; (split; [reflexivity |]);
    (split; [exact Hreach | exact Hbudget]).
Qed.

(** X6.  A lookup never registers or removes a source and never changes
    the search order; it only adds to the journal of outside calls, and
    the source it leaves active is the one that was active or a registered
    one.  This holds for every request and every behaviour of the sources
    and of the adapter. *)
Theorem search_result_keeps_the_registry (w : World) :
  let w' := snd (search_result env w) in
  projects (manager w') = projects (manager w)
  /\ search_order (manager w') = search_order (manager w)
  /\ (exists events, journal w' = (journal w ++ events)%list)
  /\ (current_project (manager w') = current_project (manager w)
      \/ registered (current_project (manager w')) (manager w') = true).
Proof.
  destruct (search_result_world w)
    as (resp & w' & events & Hrun & Hreach & _).
  rewrite Hrun. simpl snd.
  destruct (reachable_registry w w' events Hreach)
    as (Hprojects & Horder & Hjournal & Hcurrent).
  split; [exact Hprojects |]. split; [exact Horder |].
  split; [now exists events | exact Hcurrent].
Qed.

(** X7.  In one request the adapter is called at most once and GPA rows
    are asked at most once; and when the adapter is called, no source was
    asked for GPA or CGPA rows: the two branches of the handler exclude
    each other. *)
Theorem search_result_call_budget (w : World) :
  exists events,
    journal (snd (search_result env w)) = (journal w ++ events)%list
    /\ length (web_searches events) <= 1
    /\ length (gpa_queries events) <= 1
    /\ (web_searches events = []
        \/ (gpa_queries events = [] /\ cgpa_queries events = [])).
Proof.
  destruct (search_result_world w)
    as (resp & w' & events & Hrun & Hreach & Hbudget).
  rewrite Hrun. simpl snd. exists events.
  destruct (reachable_registry w w' events Hreach) as (_ & _ & Hjournal & _).
  split; [exact Hjournal | exact Hbudget].
Qed.

End Frames.

(** ** The CGPA data of a store hit *)

Section CgpaOfHit.
Context {R : PyRuntime}.
Variable env : Env.

(** When no source of [names] gives CGPA rows, all the registered ones are
    asked, in order, and the data is empty. *)
Lemma cgpa_lookup_none (roll : pyval) (names : list string) :
  forall w : World,
    forallb (no_cgpa env (manager w) roll) names = true ->
    exists name events,
      cgpa_lookup env names roll w = (Ok [], after name events w)
      /\ cgpa_queries events
         = filter (fun q => registered q (manager w)) names.
Proof.
  induction names as [| q rest IH]; intros w Hnone.
  - exists (current_project (manager w)), []. now rewrite after_same.
  - simpl in Hnone. apply andb_prop in Hnone as [Hq Hrest].
    rewrite cgpa_lookup_cons. simpl filter. unfold no_cgpa in Hq.
    destruct (registered q (manager w)) eqn:Ereg.
    + simpl in Hq.
      destruct (cgpa_records env q roll) as [[| row rows] | e];
        try discriminate;
        destruct (IH (after q [CgpaQuery q roll] w) Hrest)
          as (name & events & Hrun & Hqs);
        rewrite Hrun, after_after; do 2 eexists; (split; [reflexivity |]);
        simpl; now rewrite Hqs.
    + destruct (IH w Hrest) as (name & events & Hrun & Hqs).
      rewrite Hrun. now do 2 eexists.
Qed.

(** The handler on a store hit in [p], with the CGPA loop it ran. *)
Lemma search_result_store_hit_cgpa (data : dict)
    (pre post : list string) (p : string) (student institute : dict)
    (w : World) :
  let roll := dict_get data "rollNo" PNone in
  let regulation := dict_get data "regulation" PNone in
  let program := dict_get data "program" PNone in
  SUPABASE_AVAILABLE env = true ->
  request_json env = Ok (PDict data) ->
  truthy roll = true -> truthy regulation = true -> truthy program = true ->
  search_order (manager w) = (pre ++ p :: post)%list ->
  forallb (source_misses env (manager w) roll regulation program) pre = true ->
  registered p (manager w) = true ->
  students env p roll regulation program = Ok (Some student) ->
  institutes env p (dict_get student "institute_code" PNone)
  = Ok (Some institute) ->
  has_keys ["roll_number"; "regulation_year"; "program_name"] student = true ->
  has_keys ["institute_code"; "name"; "district"] institute = true ->
  exists ev1 name ev2 cgpa_data,
    forallb is_source_query ev1 = true
    /\ cgpa_lookup env (search_order (manager w)) roll
                   (after (current_project (manager w)) ev1 w)
       = (Ok cgpa_data,
          after name ev2 (after (current_project (manager w)) ev1 w))
    /\ search_result env w
       = (Ok (jsonify
                (success_document
                   (dict_get student "roll_number" PNone)
                   (dict_get student "regulation_year" PNone)
                   (dict_get student "program_name" PNone)
                   (dict_get institute "institute_code" PNone)
                   (dict_get institute "name" PNone)
                   (dict_get institute "district" PNone)
                   match gpa_records env p roll with
                   | Ok rows => map semester_result rows
                   | Raise _ => []
                   end
                   (PList cgpa_data))),
          after p (ev1 ++ ev2 ++ [GpaQuery p roll]) w).
Proof.
  intros roll regulation program Havail Hreq Hroll Hregu Hprog Horder Hmiss
    Hreg Hstudent Hinst Hsk Hik.
  destruct (search_and_respond_hit env roll regulation program pre post p
              student institute w Horder Hmiss Hreg Hstudent Hinst Hsk)
    as (ev1 & Hrespond & _ & Hev1).
  destruct (found_branch_store env student institute p roll
              (after (current_project (manager w)) ev1 w) Hreg Hsk Hik)
    as (cgpa_data & name & ev2 & Hloop & _ & Hfound).
  exists ev1, name, ev2, cgpa_data.
  split; [exact Hev1 |]. split; [exact Hloop |].
  unfold search_result, try_except.
  rewrite (search_result_body_valid env data w Havail Hreq Hroll Hregu Hprog).
  fold roll regulation program. rewrite Hrespond, Hfound, after_after.
  reflexivity.
Qed.

Lemma after_journal_inj (n1 n2 : string) (e1 e2 : list Event) (w : World) :
  after n1 e1 w = after n2 e2 w -> e1 = e2.
Proof.
  unfold after. intros H. inversion H as [[Hname Hjournal]].
  now apply app_inv_head in Hjournal.
Qed.

(** X8.  The CGPA data of a success response comes from the first source
    in search order that has CGPA rows, which need not be the source where
    the student was found: the response carries one entry per row of that
    source, and the sources after it are not asked. *)
Theorem cgpa_data_of_a_store_hit (data : dict)
    (pre post : list string) (p : string) (student institute : dict)
    (pre' post' : list string) (p' : string) (row : dict) (rows : list dict)
    (w : World) :
  let roll := dict_get data "rollNo" PNone in
  let regulation := dict_get data "regulation" PNone in
  let program := dict_get data "program" PNone in
  SUPABASE_AVAILABLE env = true ->
  request_json env = Ok (PDict data) ->
  truthy roll = true -> truthy regulation = true -> truthy program = true ->
  search_order (manager w) = (pre ++ p :: post)%list ->
  forallb (source_misses env (manager w) roll regulation program) pre = true ->
  registered p (manager w) = true ->
  students env p roll regulation program = Ok (Some student) ->
  institutes env p (dict_get student "institute_code" PNone)
  = Ok (Some institute) ->
  has_keys ["roll_number"; "regulation_year"; "program_name"] student = true ->
  has_keys ["institute_code"; "name"; "district"] institute = true ->
  search_order (manager w) = (pre' ++ p' :: post')%list ->
  forallb (no_cgpa env (manager w) roll) pre' = true ->
  registered p' (manager w) = true ->
  cgpa_records env p' roll = Ok (row :: rows) ->
  exists resp w',
    search_result env w = (Ok resp, w')
    /\ status resp = 200
    /\ field "cgpaData" (body resp)
       = Some (PList (map cgpa_entry (row :: rows)))
    /\ cgpa_queries (journal w')
       = (cgpa_queries (journal w)
          ++ filter (fun q => registered q (manager w)) pre' ++ [p'])%list.
Proof.
  intros roll regulation program Havail Hreq Hroll Hregu Hprog Horder Hmiss
    Hreg Hstudent Hinst Hsk Hik Horder' Hnone Hreg' Hrows.
  destruct (search_result_store_hit_cgpa data pre post p student institute w
              Havail Hreq Hroll Hregu Hprog Horder Hmiss Hreg Hstudent Hinst
              Hsk Hik)
    as (ev1 & name & ev2 & cgpa_data & Hev1 & Hloop & Hrun).
  fold roll in Hloop, Hrun.
  destruct (cgpa_lookup_hit env roll pre' post' p' row rows
              (after (current_project (manager w)) ev1 w) Hnone Hreg' Hrows)
    as (events & Hhit & Hqs & _).
  rewrite Horder' in Hloop. rewrite Hhit in Hloop.
  pose proof (f_equal snd Hloop) as Hworld. simpl snd in Hworld.
  apply after_journal_inj in Hworld.
  pose proof (f_equal fst Hloop) as Hdata. simpl fst in Hdata.
  injection Hdata as Hdata. subst ev2 cgpa_data.
  do 2 eexists. split; [exact Hrun |]. split; [reflexivity |].
  split; [reflexivity |].
  destruct (source_queries_only _ Hev1) as (Hc1 & _ & _).
  simpl journal. rewrite !cgpa_queries_app, Hc1, Hqs. simpl.
  now rewrite app_nil_r.
Qed.

(** X9.  When no source has CGPA rows for the student, every registered
    source is asked once, in search order, and the response is still the
    success document, with an empty list of CGPA data. *)
Theorem no_cgpa_rows_anywhere (data : dict)
    (pre post : list string) (p : string) (student institute : dict)
    (w : World) :
  let roll := dict_get data "rollNo" PNone in
  let regulation := dict_get data "regulation" PNone in
  let program := dict_get data "program" PNone in
  SUPABASE_AVAILABLE env = true ->
  request_json env = Ok (PDict data) ->
  truthy roll = true -> truthy regulation = true -> truthy program = true ->
  search_order (manager w) = (pre ++ p :: post)%list ->
  forallb (source_misses env (manager w) roll regulation program) pre = true ->
  registered p (manager w) = true ->
  students env p roll regulation program = Ok (Some student) ->
  institutes env p (dict_get student "institute_code" PNone)
  = Ok (Some institute) ->
  has_keys ["roll_number"; "regulation_year"; "program_name"] student = true ->
  has_keys ["institute_code"; "name"; "district"] institute = true ->
  forallb (no_cgpa env (manager w) roll) (search_order (manager w)) = true ->
  exists resp w',
    search_result env w = (Ok resp, w')
    /\ status resp = 200
    /\ field "success" (body resp) = Some (PBool true)
    /\ field "cgpaData" (body resp) = Some (PList [])
    /\ cgpa_queries (journal w')
       = (cgpa_queries (journal w)
          ++ filter (fun q => registered q (manager w))
                    (search_order (manager w)))%list.
Proof.
  intros roll regulation program Havail Hreq Hroll Hregu Hprog Horder Hmiss
    Hreg Hstudent Hinst Hsk Hik Hnone.
  destruct (search_result_store_hit_cgpa data pre post p student institute w
              Havail Hreq Hroll Hregu Hprog Horder Hmiss Hreg Hstudent Hinst
              Hsk Hik)
    as (ev1 & name & ev2 & cgpa_data & Hev1 & Hloop & Hrun).
  fold roll in Hloop, Hrun.
  destruct (cgpa_lookup_none roll (search_order (manager w))
              (after (current_project (manager w)) ev1 w) Hnone)
    as (name' & events & Hrun' & Hqs).
  change (search_order (manager (after (current_project (manager w)) ev1 w)))
    with (search_order (manager w)) in Hrun'.
  rewrite Hrun' in Hloop.
  pose proof (f_equal snd Hloop) as Hworld. simpl snd in Hworld.
  apply after_journal_inj in Hworld.
  pose proof (f_equal fst Hloop) as Hdata. simpl fst in Hdata.
  injection Hdata as Hdata. subst ev2 cgpa_data.
  do 2 eexists. split; [exact Hrun |]. split; [reflexivity |].
  split; [reflexivity |]. split; [reflexivity |].
  destruct (source_queries_only _ Hev1) as (Hc1 & _ & _).
  simpl journal. rewrite !cgpa_queries_app, Hc1, Hqs. simpl.
  now rewrite app_nil_r.
Qed.

End CgpaOfHit.

(** ** The other handlers *)

Section OtherHandlerFacts.
Context {R : PyRuntime}.
Variable env : Env.
Variable site : Site.


(** The health check, run. *)
Lemma health_check_run (w : World) :
  SUPABASE_AVAILABLE env = true ->
  health_check env site w
  = (Ok match programs site (current_project (manager w)) with
        | Ok _ =>
            jsonify (PDict
              [("status", PStr "healthy");
               ("supabase_connected", PBool true);
               ("database", PStr "supabase");
               ("current_project", PStr (current_project (manager w)));
               ("available_projects",
                PList (map PStr (projects (manager w))));
               ("message",
                PStr "API server is running and connected to Supabase (Production Ready)")])
        | Raise e => unhealthy (exn_text e)
        end, w).
Proof.
  intros Havail.
  unfold health_check, try_except, probe_programs, bind, lift, ret,
    get_supabase_client, get_manager.
  rewrite Havail. change (negb true) with false. cbv beta iota.
  now destruct (programs site (current_project (manager w))).
Qed.

(** X11.  The health check never changes the world.  It probes the active
    source: when the probe answers, the response is the healthy document
    with status 200, naming the active source and the registered ones; when
    the probe raises, the response is the unhealthy document with status
    500 and the text of the exception. *)
Theorem health_check_probes_the_active_source (w : World) :
  SUPABASE_AVAILABLE env = true ->
  exists resp,
    health_check env site w = (Ok resp, w)
    /\ match programs site (current_project (manager w)) with
       | Ok _ =>
           status resp = 200
           /\ field "status" (body resp) = Some (PStr "healthy")
           /\ field "current_project" (body resp)
              = Some (PStr (current_project (manager w)))
           /\ field "available_projects" (body resp)
              = Some (PList (map PStr (projects (manager w))))
       | Raise e => resp = unhealthy (exn_text e)
       end.
Proof.
  intros Havail. rewrite (health_check_run w Havail).
  eexists. split; [reflexivity |].
  now destruct (programs site (current_project (manager w))).
Qed.

Lemma set_current_back (name : string) (w : World) :
  set_current (current_project (manager w)) (set_current name w) = w.
Proof. now destruct w as [[ps cur order] j]. Qed.

(** X12.  Testing a source leaves the world exactly as it was, whatever the
    outcome, provided the active source is a registered one: the handler
    switches to the named source, probes it, and switches back in a
    [finally].  An unknown name is answered with status 404; a known one
    with the connected document when the probe of that source answers and
    with status 500 and the text of the exception when it raises. *)
Theorem test_project_restores_the_active_source
    (project_name : string) (w : World) :
  SUPABASE_AVAILABLE env = true ->
  registered (current_project (manager w)) (manager w) = true ->
  test_project env site project_name w
  = (Ok (if registered project_name (manager w) then
           match programs site project_name with
           | Ok _ =>
               jsonify (PDict
                 [("project", PStr project_name);
                  ("status", PStr "connected");
                  ("message", PStr "Project connection successful")])
           | Raise e => mk_response (error_document (exn_text e)) 500
           end
         else not_found project_name), w).
Proof.
  intros Havail Hactive.
  unfold test_project, try_except, bind, get_manager.
  rewrite Havail. change (negb true) with false. cbv beta iota.
  destruct (registered project_name (manager w)) eqn:Ereg;
    [| reflexivity].
  change (negb true) with false. cbv beta iota.
  unfold switch_project at 1. cbv beta iota. rewrite Ereg. cbv beta iota.
  unfold try_finally, probe_programs, bind, lift, ret, get_supabase_client,
    switch_project.
  change (current_project (manager (set_current project_name w)))
    with project_name.
  destruct (programs site project_name); cbv beta iota;
    change (registered (current_project (manager w))
                       (manager (set_current project_name w)))
      with (registered (current_project (manager w)) (manager w));
    rewrite Hactive; cbv beta iota; rewrite set_current_back; reflexivity.
Qed.

(** X13.  Switching to a registered source makes it the active one and
    changes nothing else; an unknown name is answered with status 404 and
    changes nothing.  The guard on the name means the switch itself cannot
    fail: the status is 200 or 404. *)
Theorem switch_route_guards_the_name (project_name : string) (w : World) :
  SUPABASE_AVAILABLE env = true ->
  exists resp w',
    switch_project_route env project_name w = (Ok resp, w')
    /\ (if registered project_name (manager w)
        then status resp = 200
             /\ field "current_project" (body resp) = Some (PStr project_name)
             /\ w' = set_current project_name w
        else resp = not_found project_name /\ w' = w).
Proof.
  intros Havail.
  unfold switch_project_route, try_except, bind, get_manager.
  rewrite Havail. change (negb true) with false. cbv beta iota.
  destruct (registered project_name (manager w)) eqn:Ereg.
  - change (negb true) with false. cbv beta iota.
    unfold switch_project, ret. rewrite Ereg.
    do 2 eexists. split; [reflexivity |]. now repeat split.
  - do 2 eexists. split; [reflexivity |]. now split.
Qed.

Lemma listing_lookup (current k : string) (names : list string) :
  forall acc : dict,
    lookup k (fold_left
                (fun projects_info name =>
                   dict_set projects_info name (project_entry site current name))
                names acc)
    = if existsb (String.eqb k) names
      then Some (project_entry site current k)
      else lookup k acc.
Proof.
  induction names as [| name rest IH]; intros acc; [reflexivity |].
  simpl fold_left. rewrite IH. simpl existsb.
  destruct (existsb (String.eqb k) rest).
  - now rewrite orb_true_r.
  - rewrite orb_false_r.
    destruct (String.eqb_spec k name) as [-> | Hne].
    + apply lookup_dict_set_same.
    + now apply lookup_dict_set_other.
Qed.

(** X14.  The listing of the sources has an entry for each registered name
    and for no other, and the entry of a name says it is active exactly
    when the name is the active source; the world is not changed. *)
Theorem list_projects_marks_the_active_source (w : World) :
  SUPABASE_AVAILABLE env = true ->
  exists resp,
    list_projects env site w = (Ok resp, w)
    /\ status resp = 200
    /\ forall name : string,
         field name (body resp)
         = if registered name (manager w)
           then Some (PDict
                  [("name", PStr name);
                   ("description", PStr (project_description site name));
                   ("url", PStr (project_url site name));
                   ("is_active",
                    PBool (name =? current_project (manager w)))])
           else None.
Proof.
  intros Havail.
  unfold list_projects, try_except, bind, get_manager, ret.
  rewrite Havail. change (negb true) with false. cbv beta iota.
  eexists. split; [reflexivity |]. split; [reflexivity |].
  intros name. simpl body. unfold field.
  rewrite listing_lookup. unfold registered.
  now destruct (existsb (String.eqb name) (projects (manager w))).
Qed.

Lemma column_all_or_nothing (k : string) (rows : list dict) :
  column k rows
  = if forallb (has_keys [k]) rows
    then Ok (map (fun row => dict_get row k PNone) rows)
    else Raise (KeyError k).
Proof.
  induction rows as [| row rest IH]; [reflexivity |].
  assert (Hrow : has_keys [k] row
                 = match lookup k row with Some _ => true | None => false end).
  { unfold has_keys. simpl. now destruct (lookup k row). }
  cbn [column forallb map]. rewrite Hrow, IH.
  unfold py_getitem, dict_get.
  destruct (lookup k row) as [v |]; [| reflexivity].
  now destruct (forallb (has_keys [k]) rest).
Qed.

(** The regulations lookup, run. *)
Lemma get_regulations_run (program : string) (w : World) :
  SUPABASE_AVAILABLE env = true ->
  get_regulations env site program w
  = (Ok match regulations site (current_project (manager w)) program with
        | Ok rows =>
            if forallb (has_keys ["regulation_year"]) rows
            then jsonify (PDict
                   [("regulations",
                     PList (map (fun row => dict_get row "regulation_year" PNone)
                                rows))])
            else mk_response (error_document "'regulation_year'") 500
        | Raise e => mk_response (error_document (exn_text e)) 500
        end, w).
Proof.
  intros Havail.
  unfold get_regulations, try_except, bind, lift, ret, get_supabase_client.
  rewrite Havail. change (negb true) with false. cbv beta iota.
  destruct (regulations site (current_project (manager w)) program)
    as [rows | e]; [| reflexivity].
  rewrite column_all_or_nothing.
  now destruct (forallb (has_keys ["regulation_year"]) rows).
Qed.

(** X15.  The regulations of a program are asked of the active source and
    the world is not changed.  When every row has a [regulation_year], the
    response lists the years, one per row in the order of the rows; when
    one row lacks it, the response is an error document with status 500
    and no year is returned; when the query raises, the response carries
    the text of the exception with status 500. *)
Theorem get_regulations_all_or_nothing (program : string) (w : World) :
  SUPABASE_AVAILABLE env = true ->
  exists resp,
    get_regulations env site program w = (Ok resp, w)
    /\ match regulations site (current_project (manager w)) program with
       | Ok rows =>
           if forallb (has_keys ["regulation_year"]) rows
           then status resp = 200
                /\ field "regulations" (body resp)
                   = Some (PList (map (fun row =>
                                         dict_get row "regulation_year" PNone)
                                      rows))
           else resp = mk_response (error_document "'regulation_year'") 500
       | Raise e => resp = mk_response (error_document (exn_text e)) 500
       end.
Proof.
  intros Havail. rewrite (get_regulations_run program w Havail).
  eexists. split; [reflexivity |].
  destruct (regulations site (current_project (manager w)) program)
    as [rows | e]; [| reflexivity].
  now destruct (forallb (has_keys ["regulation_year"]) rows).
Qed.

End OtherHandlerFacts.

(** ** The debug endpoint *)

Section DebugFacts.
Context {R : PyRuntime}.
Variable env : Env.
Variable site : Site.

Lemma length_append (s t : string) :
  String.length (s ++ t) = String.length s + String.length t.
Proof. induction s as [| c s IH]; simpl; [reflexivity | now rewrite IH]. Qed.

Lemma head_length (n : nat) :
  forall s : string, String.length (substring 0 n s) <= n.
Proof.
  induction n as [| n IH]; intros [| c s]; simpl; try lia.
  specialize (IH s). lia.
Qed.

Lemma head_of_short (n : nat) :
  forall s : string, String.length s <= n -> substring 0 n s = s.
Proof.
  induction n as [| n IH]; intros [| c s] Hlen; simpl in *;
    try reflexivity; try lia.
  rewrite IH by lia. reflexivity.
Qed.

Lemma head_is_prefix (n : nat) :
  forall s : string, String.prefix (substring 0 n s) s = true.
Proof.
  induction n as [| n IH]; intros [| c s]; simpl; try reflexivity.
  destruct (ascii_dec c c) as [_ | Hne]; [apply IH | now elim Hne].
Qed.

(** The debug endpoint, run. *)
Lemma debug_info_run (w : World) :
  SUPABASE_AVAILABLE env = true ->
  exists info : dict,
    debug_info env site w = (Ok (jsonify (PDict info)), w)
    /\ lookup "environment_variables" info
       = Some (PDict
           [("SUPABASE_PRIMARY_URL",
             PStr (getenv_or_not_set site "SUPABASE_PRIMARY_URL"));
            ("SUPABASE_PRIMARY_KEY",
             PStr (masked_key site "SUPABASE_PRIMARY_KEY"));
            ("SUPABASE_SECONDARY_URL",
             PStr (getenv_or_not_set site "SUPABASE_SECONDARY_URL"));
            ("SUPABASE_SECONDARY_KEY",
             PStr (masked_key site "SUPABASE_SECONDARY_KEY"))])
    /\ lookup "current_project" info
       = Some (PStr (current_project (manager w)))
    /\ lookup "supabase_connection" info
       = Some (PStr match programs site (current_project (manager w)) with
                    | Ok _ => "SUCCESS"
                    | Raise e => "FAILED: " ++ exn_text e
                    end)
    /\ lookup "test_query_result" info
       = match programs site (current_project (manager w)) with
         | Ok data => Some (PInt (Z.of_nat (List.length data)))
         | Raise _ => None
         end.
Proof.
  intros Havail.
  unfold debug_info, try_except, probe_programs, bind, lift, ret,
    get_supabase_client, get_manager.
  rewrite Havail. change (negb true) with false. cbv beta iota.
  destruct (programs site (current_project (manager w)));
    eexists; (split; [reflexivity |]); now repeat split.
Qed.

(** X16.  The debug endpoint answers with status 200 and changes nothing.
    It never shows more of a key than its first 20 characters followed by
    three dots: the text shown is at most 23 characters long and starts
    with a prefix of the key.  A key of 20 characters or fewer is therefore
    shown whole; a key that is not set or is empty reads NOT_SET; the URLs
    are shown as they are. *)
Theorem debug_info_masks_keys (w : World) :
  SUPABASE_AVAILABLE env = true ->
  (exists resp vars,
     debug_info env site w = (Ok resp, w)
     /\ status resp = 200
     /\ field "environment_variables" (body resp) = Some vars
     /\ field "SUPABASE_PRIMARY_KEY" vars
        = Some (PStr (masked_key site "SUPABASE_PRIMARY_KEY"))
     /\ field "SUPABASE_SECONDARY_KEY" vars
        = Some (PStr (masked_key site "SUPABASE_SECONDARY_KEY"))
     /\ field "SUPABASE_PRIMARY_URL" vars
        = Some (PStr match environ site "SUPABASE_PRIMARY_URL" with
                     | Some url => url
                     | None => "NOT_SET"
                     end))
  /\ forall name : string,
       String.length (masked_key site name) <= 23
       /\ match environ site name with
          | None => masked_key site name = "NOT_SET"
          | Some value =>
              if value =? "" then masked_key site name = "NOT_SET"
              else
                masked_key site name = substring 0 20 value ++ "..."
                /\ String.prefix (substring 0 20 value) value = true
                /\ (String.length value <= 20 ->
                    masked_key site name = value ++ "...")
          end.
Proof.
  intros Havail. split.
  - destruct (debug_info_run w Havail) as (info & Hrun & Hvars & _).
    do 2 eexists. split; [exact Hrun |]. split; [reflexivity |].
    split; [exact Hvars |]. now repeat split.
  - intros name. unfold masked_key, getenv_or_not_set.
    destruct (environ site name) as [value |]; [| split; [simpl; lia | reflexivity]].
    destruct (value =? ""); [split; [simpl; lia | reflexivity] |].
    simpl negb. cbv iota. split.
    + rewrite length_append. pose proof (head_length 20 value). simpl. lia.
    + split; [reflexivity |]. split; [apply head_is_prefix |].
      intros Hshort. now rewrite head_of_short.
Qed.

(** X17.  A failing probe does not fail the debug endpoint: the response
    has status 200 either way and reports the connection as SUCCESS, with
    the number of rows the probe returned, or as FAILED with the text of
    the exception and no row count.  The health check answers the same
    failure with status 500. *)
Theorem debug_info_survives_a_failed_probe (w : World) :
  SUPABASE_AVAILABLE env = true ->
  exists resp,
    debug_info env site w = (Ok resp, w)
    /\ status resp = 200
    /\ match programs site (current_project (manager w)) with
       | Ok data =>
           field "supabase_connection" (body resp) = Some (PStr "SUCCESS")
           /\ field "test_query_result" (body resp)
              = Some (PInt (Z.of_nat (List.length data)))
       | Raise e =>
           field "supabase_connection" (body resp)
           = Some (PStr ("FAILED: " ++ exn_text e))
           /\ field "test_query_result" (body resp) = None
           /\ health_check env site w = (Ok (unhealthy (exn_text e)), w)
       end.
Proof.
  intros Havail.
  destruct (debug_info_run w Havail)
    as (info & Hrun & _ & _ & Hconnection & Hcount).
  pose proof (health_check_run env site w Havail) as Hhealth.
  eexists. split; [exact Hrun |]. split; [reflexivity |].
  simpl body. unfold field.
  destruct (programs site (current_project (manager w))); now repeat split.
Qed.

(** X18.  A lookup that finds the student in source [p] redirects the
    requests that follow it: the health check then probes and reports [p],
    and the regulations of a program are then asked of [p], whatever source
    was active before the lookup. *)
Theorem lookup_redirects_later_requests (data : dict)
    (pre post : list string) (p : string) (student institute : dict)
    (program' : string) (w : World) :
  let roll := dict_get data "rollNo" PNone in
  let regulation := dict_get data "regulation" PNone in
  let program := dict_get data "program" PNone in
  SUPABASE_AVAILABLE env = true ->
  request_json env = Ok (PDict data) ->
  truthy roll = true -> truthy regulation = true -> truthy program = true ->
  search_order (manager w) = (pre ++ p :: post)%list ->
  forallb (source_misses env (manager w) roll regulation program) pre = true ->
  registered p (manager w) = true ->
  students env p roll regulation program = Ok (Some student) ->
  institutes env p (dict_get student "institute_code" PNone)
  = Ok (Some institute) ->
  has_keys ["roll_number"; "regulation_year"; "program_name"] student = true ->
  has_keys ["institute_code"; "name"; "district"] institute = true ->
  let w' := snd (search_result env w) in
  (exists resp,
     health_check env site w' = (Ok resp, w')
     /\ match programs site p with
        | Ok _ =>
            status resp = 200
            /\ field "current_project" (body resp) = Some (PStr p)
        | Raise e => resp = unhealthy (exn_text e)
        end)
  /\ (exists resp,
        get_regulations env site program' w' = (Ok resp, w')
        /\ match regulations site p program' with
           | Ok rows =>
               if forallb (has_keys ["regulation_year"]) rows
               then field "regulations" (body resp)
                    = Some (PList (map (fun row =>
                                          dict_get row "regulation_year" PNone)
                                       rows))
               else resp = mk_response (error_document "'regulation_year'") 500
           | Raise e => resp = mk_response (error_document (exn_text e)) 500
           end).
Proof.
  intros roll regulation program Havail Hreq Hroll Hregu Hprog Horder Hmiss
    Hreg Hstudent Hinst Hsk Hik w'.
  destruct (search_result_store_hit env data pre post p student institute w
              Havail Hreq Hroll Hregu Hprog Horder Hmiss Hreg Hstudent Hinst
              Hsk Hik)
    as (cgpa_data & events & Hrun & _).
  subst w'. fold roll in Hrun. rewrite Hrun. simpl snd. split.
  - rewrite (health_check_run env site _ Havail).
    change (current_project (manager (after p events w))) with p.
    eexists. split; [reflexivity |].
    now destruct (programs site p).
  - rewrite (get_regulations_run env site program' _ Havail).
    change (current_project (manager (after p events w))) with p.
    eexists. split; [reflexivity |].
    destruct (regulations site p program') as [rows | e]; [| reflexivity].
    now destruct (forallb (has_keys ["regulation_year"]) rows).
Qed.

End DebugFacts.

(** ** The answer does not depend on the active source *)

Section Blindness.
Context {R : PyRuntime}.
Variable env : Env.

Lemma same_registry_after (n1 n2 : string) (e1 e2 : list Event)
    (w1 w2 : World) :
  same_registry w1 w2 -> same_registry (after n1 e1 w1) (after n2 e2 w2).
Proof. intros [Hp Ho]. now split. Qed.

Lemma registered_same (name : string) (w1 w2 : World) :
  same_registry w1 w2 ->
  registered name (manager w1) = registered name (manager w2).
Proof. intros [Hp _]. unfold registered. now rewrite Hp. Qed.

Lemma blind_ret {A : Type} (a : A) : blind (ret a).
Proof. intros w1 w2 H. now split. Qed.

Lemma blind_lift {A : Type} (o : outcome A) : blind (lift o).
Proof. intros w1 w2 H. now split. Qed.

Lemma blind_raise {A : Type} (e : exn) : blind (@raise R A e).
Proof. intros w1 w2 H. now split. Qed.

Lemma blind_bind {A B : Type} (m : M A) (k : A -> M B) :
  blind m -> (forall a, blind (k a)) -> blind (bind m k).
Proof.
  intros Hm Hk w1 w2 H. unfold bind.
  destruct (Hm w1 w2 H) as [Hfst Hsnd].
  destruct (m w1) as [o1 w1'], (m w2) as [o2 w2']. simpl in Hfst, Hsnd.
  subst o2. destruct o1 as [a | e]; [now apply Hk | now split].
Qed.

Lemma blind_try_except {A : Type} (m : M A) (handler : exn -> M A) :
  blind m -> (forall e, blind (handler e)) -> blind (try_except m handler).
Proof.
  intros Hm Hh w1 w2 H. unfold try_except.
  destruct (Hm w1 w2 H) as [Hfst Hsnd].
  destruct (m w1) as [o1 w1'], (m w2) as [o2 w2']. simpl in Hfst, Hsnd.
  subst o2. destruct o1 as [a | e]; [now split | now apply Hh].
Qed.

Lemma blind_get_search_order : blind get_search_order.
Proof. intros w1 w2 [Hp Ho]. unfold get_search_order. simpl. now rewrite Ho. Qed.

(** A switch whose returned name is dropped. *)
Lemma blind_switch_then {A : Type} (name : pyval) (k : M A) :
  blind k -> blind (bind (switch_project name) (fun _ => k)).
Proof.
  intros Hk w1 w2 H. unfold bind, switch_project.
  destruct name; try (now split).
  rewrite (registered_same s w1 w2 H).
  destruct (registered s (manager w2)); [| now split].
  apply Hk. destruct H as [Hp Ho]. now split.
Qed.

Lemma blind_try_source (name : string) (roll regulation program : pyval) :
  blind (try_source env name roll regulation program).
Proof.
  intros w1 w2 H. rewrite !try_source_run.
  rewrite (registered_same name w1 w2 H).
  destruct (registered name (manager w2)); [| now split].
  destruct (students env name roll regulation program) as [[student |] | e];
    cbv zeta;
    try destruct (institutes env name (dict_get student "institute_code" PNone));
    (split; [reflexivity | now apply same_registry_after]).
Qed.

Lemma blind_search_sources (roll regulation program : pyval)
    (names : list string) :
  blind (search_sources env names roll regulation program).
Proof.
  induction names as [| q rest IH]; [apply blind_ret |].
  simpl search_sources. apply blind_bind; [apply blind_try_source |].
  intros [result |]; [apply blind_ret | exact IH].
Qed.

Lemma blind_resolver (roll regulation program : pyval) :
  blind (search_student_across_projects env roll regulation program).
Proof.
  intros w1 w2 H. unfold search_student_across_projects.
  destruct H as [Hp Ho]. rewrite Ho.
  destruct (blind_search_sources roll regulation program
              (search_order (manager w2)) w1 w2 (conj Hp Ho))
    as [Hfst [Hp' Ho']].
  destruct (search_sources env (search_order (manager w2)) roll regulation
                           program w1) as [o1 w1'].
  destruct (search_sources env (search_order (manager w2)) roll regulation
                           program w2) as [o2 w2'].
  simpl in Hfst, Hp', Ho'. subst o2.
  destruct o1 as [[result |] | e]; (split; [reflexivity | now split]).
Qed.

Lemma blind_cgpa_lookup (roll : pyval) (names : list string) :
  blind (cgpa_lookup env names roll).
Proof.
  induction names as [| q rest IH]; [apply blind_ret |].
  intros w1 w2 H. rewrite !cgpa_lookup_cons.
  rewrite (registered_same q w1 w2 H).
  destruct (registered q (manager w2)); [| now apply IH].
  destruct (cgpa_records env q roll) as [[| row rows] | e];
    try (apply IH; now apply same_registry_after).
  split; [reflexivity | now apply same_registry_after].
Qed.

Lemma blind_get_cgpa_data (result : dict) (roll : pyval) :
  blind (get_cgpa_data env result roll).
Proof.
  unfold get_cgpa_data.
  destruct (eq_str (dict_get result "source" PNone) "supabase");
    [| apply blind_ret].
  apply blind_bind; [apply blind_get_search_order |]. intros order.
  apply blind_bind; [apply blind_cgpa_lookup |]. intros cgpa_data.
  apply blind_switch_then, blind_ret.
Qed.

Lemma blind_fetch_gpa_records (result : dict) (roll : pyval) :
  blind (fetch_gpa_records env result roll).
Proof.
  intros w1 w2 H. rewrite !fetch_gpa_records_run.
  destruct (dict_get result "project_name" (PStr "primary")); try (now split).
  rewrite (registered_same s w1 w2 H).
  destruct (registered s (manager w2)); [| now split].
  split; [reflexivity | now apply same_registry_after].
Qed.

Lemma blind_get_gpa_records (result : dict) (roll : pyval) :
  blind (get_gpa_records env result roll).
Proof.
  unfold get_gpa_records. apply blind_bind; [apply blind_lift |].
  intros [|].
  - apply blind_bind; [apply blind_lift | intros _; apply blind_ret].
  - apply blind_fetch_gpa_records.
Qed.

Lemma blind_found_branch (result : dict) (roll : pyval) :
  blind (found_branch env result roll).
Proof.
  unfold found_branch.
  apply blind_bind; [apply blind_get_cgpa_data |]. intros cgpa_data.
  apply blind_bind; [apply blind_get_gpa_records |]. intros gpa.
  apply blind_bind; [apply blind_lift |]. intros document.
  apply blind_bind; [apply blind_lift |]. intros entries.
  apply blind_ret.
Qed.

Lemma blind_fallback_branch (roll regulation program : pyval) :
  blind (fallback_branch env roll regulation program).
Proof.
  unfold fallback_branch.
  apply blind_bind.
  { unfold search_student_in_web_apis. apply blind_bind; [| intros _; apply blind_lift].
    intros w1 w2 [Hp Ho]. unfold log. simpl. now repeat split. }
  intros web_result. apply blind_bind.
  { destruct (truthy web_result); [| apply blind_ret].
    apply blind_bind; [apply blind_lift | intros success; apply blind_ret]. }
  intros [|]; [apply blind_ret |].
  apply blind_bind; [apply blind_get_search_order | intros order; apply blind_ret].
Qed.

Lemma blind_search_result : blind (search_result env).
Proof.
  unfold search_result.
  apply blind_try_except; [| intros e; apply blind_ret].
  unfold search_result_body.
  destruct (negb (SUPABASE_AVAILABLE env)); [apply blind_ret |].
  apply blind_bind; [apply blind_lift |]. intros data.
  destruct (negb (truthy data)); [apply blind_ret |].
  apply blind_bind; [apply blind_lift |]. intros roll.
  apply blind_bind; [apply blind_lift |]. intros regulation.
  apply blind_bind; [apply blind_lift |]. intros program.
  destruct (negb (truthy roll && truthy regulation && truthy program));
    [apply blind_ret |].
  unfold search_and_respond.
  apply blind_bind; [apply blind_resolver |]. intros result.
  apply blind_bind.
  { destruct (truthy result); [apply blind_lift | apply blind_ret]. }
  intros student. destruct (truthy student).
  - destruct result; try apply blind_raise. apply blind_found_branch.
  - apply blind_fallback_branch.
Qed.

(** X19.  The response of a lookup does not depend on which source is
    active when the request arrives, nor on the calls made before it: from
    two worlds with the same registered sources and the same search order
    the handler gives the same response.  Every query it sends goes through
    a switch made just before it. *)
Theorem response_ignores_the_active_source (w1 w2 : World) :
  projects (manager w1) = projects (manager w2) ->
  search_order (manager w1) = search_order (manager w2) ->
  fst (search_result env w1) = fst (search_result env w2).
Proof.
  intros Hp Ho. now apply blind_search_result.
Qed.

(** X20.  Asking twice gives the same response: what a lookup leaves
    behind, the source it left active included, does not change the answer
    to the same request when it comes again. *)
Theorem repeated_lookup_same_answer (w : World) :
  fst (search_result env (snd (search_result env w)))
  = fst (search_result env w).
Proof.
  apply blind_search_result.
  destruct (search_result_world env w) as (resp & w' & events & Hrun & Hreach & _).
  rewrite Hrun. simpl snd.
  destruct (reachable_registry w w' events Hreach) as (Hp & Ho & _).
  now split.
Qed.

End Blindness.

(** * The further properties on the sample deployment *)

Section FurtherOnSamples.
#[local] Existing Instance sample_runtime.

(** X1 on a request without its third field. *)
Lemma incomplete_request_is_rejected_witness :
  let env :=
    sample_env_with
      (Ok (PDict [("rollNo", sample_roll); ("regulation", sample_regulation)]))
      (Ok []) (Ok PNone) in
  exists text,
    search_result env sample_world
    = (Ok (mk_response (error_document text) 400), sample_world).
Proof.
  exact (incomplete_request_is_rejected
           (sample_env_with
              (Ok (PDict [("rollNo", sample_roll);
                          ("regulation", sample_regulation)]))
              (Ok []) (Ok PNone))
           sample_world eq_refl eq_refl).
Defined.

(** X3 on a result of the adapter's channel. *)
Lemma web_result_is_normalized_without_queries_witness :
  found_branch sample_env sample_web_result sample_roll sample_world
  = (Ok (jsonify
           (success_document
              (PStr "123456") (PStr "2016") (PStr "Diploma")
              (PStr "50001") (PStr "Dhaka Polytechnic") (PStr "Dhaka")
              [semester_result [("semester", PInt 1); ("gpa", PStr "3.50")]]
              (PList []))),
     sample_world).
Proof.
  exact (web_result_is_normalized_without_queries sample_env
           sample_web_result sample_student sample_institute
           "web_api_btebresulthub"
           [[("semester", PInt 1); ("gpa", PStr "3.50")]]
           sample_roll sample_world
           eq_refl eq_refl eq_refl eq_refl eq_refl eq_refl eq_refl).
Defined.

(** X4 on a result whose second record is a string. *)
Lemma malformed_record_fails_the_answer_witness :
  found_branch sample_env
    (dict_set sample_web_result "gpa_records"
       (PList [PDict [("semester", PInt 1)]; PStr "semester 2"]))
    sample_roll sample_world
  = (Raise (mk_exn "AttributeError" "'str' object has no attribute 'get'"),
     sample_world).
Proof.
  exact (malformed_record_fails_the_answer sample_env
           (dict_set sample_web_result "gpa_records"
              (PList [PDict [("semester", PInt 1)]; PStr "semester 2"]))
           sample_student sample_institute "web_api_btebresulthub"
           [[("semester", PInt 1)]] (PStr "semester 2") []
           sample_roll sample_world
           eq_refl eq_refl eq_refl eq_refl eq_refl eq_refl eq_refl eq_refl).
Defined.

(** X5 on a result that names no source. *)
Lemma gpa_fetch_defaults_to_primary_witness :
  fetch_gpa_records sample_env [("source", PStr "supabase")] sample_roll
                    sample_world
  = (Ok (PList (map PDict sample_gpa_rows)),
     after "primary" [GpaQuery "primary" sample_roll] sample_world).
Proof.
  exact (gpa_fetch_defaults_to_primary sample_env [("source", PStr "supabase")]
           sample_roll sample_world eq_refl).
Defined.

(** X8 on the sample deployment: the student is in [secondary], the CGPA
    row comes from [archive]. *)
Lemma cgpa_data_of_a_store_hit_witness :
  exists resp w',
    search_result sample_env sample_world = (Ok resp, w')
    /\ status resp = 200
    /\ field "cgpaData" (body resp) = Some (PList [cgpa_entry sample_cgpa_row])
    /\ cgpa_queries (journal w') = ["primary"; "secondary"; "archive"].
Proof.
  exact (cgpa_data_of_a_store_hit sample_env sample_request
           ["primary"] ["archive"] "secondary" sample_student sample_institute
           ["primary"; "secondary"] [] "archive" sample_cgpa_row []
           sample_world
           eq_refl eq_refl eq_refl eq_refl eq_refl eq_refl eq_refl eq_refl
           eq_refl eq_refl eq_refl eq_refl eq_refl eq_refl eq_refl eq_refl).
Defined.

(** X9 on the sample deployment without CGPA rows. *)
Lemma no_cgpa_rows_anywhere_witness :
  exists resp w',
    search_result sample_env_no_cgpa sample_world = (Ok resp, w')
    /\ status resp = 200
    /\ field "success" (body resp) = Some (PBool true)
    /\ field "cgpaData" (body resp) = Some (PList [])
    /\ cgpa_queries (journal w') = ["primary"; "secondary"; "archive"].
Proof.
  exact (no_cgpa_rows_anywhere sample_env_no_cgpa sample_request
           ["primary"] ["archive"] "secondary" sample_student sample_institute
           sample_world
           eq_refl eq_refl eq_refl eq_refl eq_refl eq_refl eq_refl eq_refl
           eq_refl eq_refl eq_refl eq_refl eq_refl).
Defined.


(** X11 on the sample deployment, where [primary] answers the probe. *)
Lemma health_check_probes_the_active_source_witness :
  exists resp,
    health_check sample_env sample_site sample_world = (Ok resp, sample_world)
    /\ status resp = 200
    /\ field "status" (body resp) = Some (PStr "healthy")
    /\ field "current_project" (body resp) = Some (PStr "primary")
    /\ field "available_projects" (body resp)
       = Some (PList [PStr "primary"; PStr "secondary"; PStr "archive"]).
Proof.
  exact (health_check_probes_the_active_source sample_env sample_site
           sample_world eq_refl).
Defined.

(** X12 on the sample deployment: testing [archive], whose probe fails,
    leaves [primary] active. *)
Lemma test_project_restores_the_active_source_witness :
  test_project sample_env sample_site "archive" sample_world
  = (Ok (mk_response (error_document "timed out") 500), sample_world)
  /\ test_project sample_env sample_site "secondary" sample_world
     = (Ok (jsonify (PDict
              [("project", PStr "secondary");
               ("status", PStr "connected");
               ("message", PStr "Project connection successful")])),
        sample_world)
  /\ test_project sample_env sample_site "staging" sample_world
     = (Ok (not_found "staging"), sample_world).
Proof.
  split; [| split].
  - exact (test_project_restores_the_active_source sample_env sample_site
             "archive" sample_world eq_refl eq_refl).
  - exact (test_project_restores_the_active_source sample_env sample_site
             "secondary" sample_world eq_refl eq_refl).
  - exact (test_project_restores_the_active_source sample_env sample_site
             "staging" sample_world eq_refl eq_refl).
Defined.

(** X13 on the sample deployment. *)
Lemma switch_route_guards_the_name_witness :
  (exists resp w',
     switch_project_route sample_env "secondary" sample_world = (Ok resp, w')
     /\ status resp = 200
     /\ field "current_project" (body resp) = Some (PStr "secondary")
     /\ w' = set_current "secondary" sample_world)
  /\ (exists resp w',
        switch_project_route sample_env "staging" sample_world = (Ok resp, w')
        /\ resp = not_found "staging" /\ w' = sample_world).
Proof.
  split.
  - exact (switch_route_guards_the_name sample_env "secondary" sample_world
             eq_refl).
  - exact (switch_route_guards_the_name sample_env "staging" sample_world
             eq_refl).
Defined.

(** X14 on the sample deployment: [primary] is listed as active,
    [secondary] is not, and an unknown name is not listed. *)
Lemma list_projects_marks_the_active_source_witness :
  exists resp,
    list_projects sample_env sample_site sample_world = (Ok resp, sample_world)
    /\ status resp = 200
    /\ field "primary" (body resp)
       = Some (PDict [("name", PStr "primary");
                      ("description", PStr "Results database primary");
                      ("url", PStr "https://primary.supabase.co");
                      ("is_active", PBool true)])
    /\ field "secondary" (body resp)
       = Some (PDict [("name", PStr "secondary");
                      ("description", PStr "Results database secondary");
                      ("url", PStr "https://secondary.supabase.co");
                      ("is_active", PBool false)])
    /\ field "staging" (body resp) = None.
Proof.
  destruct (list_projects_marks_the_active_source sample_env sample_site
              sample_world eq_refl)
    as (resp & Hrun & Hstatus & Hentries).
  exists resp. split; [exact Hrun |]. split; [exact Hstatus |].
  split; [exact (Hentries "primary") |].
  split; [exact (Hentries "secondary") | exact (Hentries "staging")].
Defined.

(** X15 on the sample deployment with [secondary] active. *)
Lemma get_regulations_all_or_nothing_witness :
  let w := set_current "secondary" sample_world in
  exists resp,
    get_regulations sample_env sample_site "Diploma" w = (Ok resp, w)
    /\ status resp = 200
    /\ field "regulations" (body resp)
       = Some (PList [PStr "2016"; PStr "2022"]).
Proof.
  exact (get_regulations_all_or_nothing sample_env sample_site "Diploma"
           (set_current "secondary" sample_world) eq_refl).
Defined.

(** X16 on the sample deployment, whose primary key has nine characters
    and is shown whole. *)
Lemma debug_info_masks_keys_witness :
  exists resp vars,
    debug_info sample_env sample_site sample_world = (Ok resp, sample_world)
    /\ status resp = 200
    /\ field "environment_variables" (body resp) = Some vars
    /\ field "SUPABASE_PRIMARY_KEY" vars = Some (PStr "short-key...")
    /\ field "SUPABASE_SECONDARY_KEY" vars = Some (PStr "NOT_SET")
    /\ field "SUPABASE_PRIMARY_URL" vars = Some (PStr "NOT_SET").
Proof.
  exact (proj1 (debug_info_masks_keys sample_env sample_site sample_world
                  eq_refl)).
Defined.

(** X17 on the sample deployment with [archive] active, whose probe
    fails. *)
Lemma debug_info_survives_a_failed_probe_witness :
  let w := set_current "archive" sample_world in
  exists resp,
    debug_info sample_env sample_site w = (Ok resp, w)
    /\ status resp = 200
    /\ field "supabase_connection" (body resp)
       = Some (PStr "FAILED: timed out")
    /\ field "test_query_result" (body resp) = None
    /\ health_check sample_env sample_site w
       = (Ok (unhealthy "timed out"), w).
Proof.
  exact (debug_info_survives_a_failed_probe sample_env sample_site
           (set_current "archive" sample_world) eq_refl).
Defined.

(** X18 on the sample deployment: after the lookup, which found the student
    in [secondary], the health check reports [secondary] and the
    regulations come from [secondary]. *)
Lemma lookup_redirects_later_requests_witness :
  let w' := snd (search_result sample_env sample_world) in
  (exists resp,
     health_check sample_env sample_site w' = (Ok resp, w')
     /\ status resp = 200
     /\ field "current_project" (body resp) = Some (PStr "secondary"))
  /\ (exists resp,
        get_regulations sample_env sample_site "Diploma" w' = (Ok resp, w')
        /\ field "regulations" (body resp)
           = Some (PList [PStr "2016"; PStr "2022"])).
Proof.
  exact (lookup_redirects_later_requests sample_env sample_site sample_request
           ["primary"] ["archive"] "secondary" sample_student sample_institute
           "Diploma" sample_world
           eq_refl eq_refl eq_refl eq_refl eq_refl eq_refl eq_refl eq_refl
           eq_refl eq_refl eq_refl eq_refl).
Defined.

(** X19 on the sample deployment, started with [primary] active and an
    empty journal, and with [archive] active after an earlier call. *)
Lemma response_ignores_the_active_source_witness :
  fst (search_result sample_env sample_world)
  = fst (search_result sample_env
           (mk_world (mk_manager ["primary"; "secondary"; "archive"] "archive"
                                 ["primary"; "secondary"; "archive"])
                     [GpaQuery "archive" sample_roll])).
Proof.
  exact (response_ignores_the_active_source sample_env sample_world
           (mk_world (mk_manager ["primary"; "secondary"; "archive"] "archive"
                                 ["primary"; "secondary"; "archive"])
                     [GpaQuery "archive" sample_roll])
           eq_refl eq_refl).
Defined.

End FurtherOnSamples.
